(** * TipJar: a shallow embedding of the tip-jar contract

    Source: [smart_contracts/tip_jar/contract.algo.ts].

    The contract is a class whose methods read and write global state
    (one value per key) and local state (one value per key and account),
    submit inner transactions and log events.  Every method runs inside
    one application call: a failed [assert], or an arithmetic operation
    that fails, rejects the whole call and the ledger discards whatever
    the call had written.

    The embedding keeps that structure:
    - [uint64] values are [N]; [+], [-], [*] and [/] are the checked
      operations of the virtual machine (they fail on overflow, on a
      negative difference and on a zero divisor, they never wrap);
    - a method body is a computation in a small state-and-failure monad
      [M]; when a body fails, the monad keeps the state the body had
      reached, so that "this guard precedes every write" is a statement
      about the body;
    - [call] is the ledger's view of one application call: it returns the
      body's state on success and the state before the call on failure.

    The embedding covers the methods of the contract.  What the ledger
    does around them (funding the application account, opting an account
    in or clearing its local state, the failure of an inner transaction
    for lack of funds) is outside the source and is not modelled.

    Local state.  The machine fails the read of a local key that holds no
    value, and no method of the contract writes a local key of an account
    before it has read one of that account's keys.  The embedding gives
    every key the zero of its type from the start ([noProfile], [lread]):
    it describes the contract on accounts whose keys have been
    initialised, and it accepts every call the machine accepts.  A call
    the machine rejects at such a read is one more rejected call, which
    commits nothing.  The properties below are of the kinds that carry
    over to the machine: a call is rejected; a call that returned did so
    under stated conditions and with a stated effect; a method whose
    reads are all of keys that hold values returns exactly under stated
    conditions; an invariant holds after every run. *)

From Stdlib Require Import NArith Lia String Ascii List DecimalString.
From stdpp Require Import gmap strings list fin_maps.
Import ListNotations.

Local Open Scope string_scope.
Local Open Scope N_scope.

(** ** Values *)

(** A [bytes] value, and an account, which is its 32-byte public key.
    The contract's [===] and [!==] on accounts and on [bytes] compare
    the values; they are [String.eqb] and its negation here. *)
Abbreviation bytes := string.
Abbreviation Account := string.

(** [Global.zeroAddress]: thirty-two zero bytes. *)
Definition zeroAddress : Account :=
  string_of_list_ascii (repeat Ascii.zero 32).

Definition MAX_UINT64 : N := 18446744073709551615.

(** The machine's arithmetic on [uint64]. *)
Definition add64 (a b : N) : option N :=
  if a + b <=? MAX_UINT64 then Some (a + b) else None.

Definition sub64 (a b : N) : option N :=
  if b <=? a then Some (a - b) else None.

Definition mul64 (a b : N) : option N :=
  if a * b <=? MAX_UINT64 then Some (a * b) else None.

Definition div64 (a b : N) : option N :=
  if b =? 0 then None else Some (a / b).

(** A [string] holds the UTF-8 bytes of a text.  [s.length] counts the
    UTF-16 code units of the text, not its bytes: a character encoded in
    one, two or three bytes is one unit, a character encoded in four
    bytes is two units (a surrogate pair), and a continuation byte
    ([10xxxxxx]) belongs to the character its leading byte started. *)
Definition utf16Units (b : ascii) : N :=
  let n := N_of_ascii b in
  if n <? 128 then 1
  else if n <? 192 then 0
  else if n <? 240 then 1
  else 2.

(** [s.length] as a [uint64]. *)
Fixpoint strlen (s : string) : N :=
  match s with
  | EmptyString => 0
  | String b s' => utf16Units b + strlen s'
  end.

(** A [uint64] inside a template literal: its decimal digits. *)
Definition show_uint64 (n : N) : string :=
  NilZero.string_of_uint (N.to_uint n).

(** ** State *)

Record GlobalState := mkGlobalState {
  totalCreators : N;
  totalTipsProcessed : N;
  totalTipCount : N;
  minTipAmount : N;
  platformFeeBps : N;
  adminAddress : bytes;
  pendingAdminAddress : bytes;
  isPaused : N;
  totalBadgesMinted : N;
  totalFeesAccumulated : N;
  bronzeThreshold : N;
  silverThreshold : N;
  goldThreshold : N;
  diamondThreshold : N
}.

(** The ten local-state keys of one account. *)
Record Profile := mkProfile {
  creatorName : string;
  creatorBio : string;
  creatorCategory : string;
  tipsReceived : N;
  tipCount : N;
  isRegistered : N;
  profileImageUrl : string;
  revSplitAddress : string;
  revSplitPercent : N;
  revSplitName : string
}.

(** The attached payment of [sendTip] ([gtxn.PaymentTxn]). *)
Record PaymentTxn := mkPaymentTxn {
  amount : N;
  receiver : Account;
  closeRemainderTo : Account;
  rekeyTo : Account
}.

(** Inner transactions the contract submits. *)
Inductive InnerTxn :=
| ItxnPayment (receiver : Account) (amount : N) (fee : N)
| ItxnAssetConfig (total decimals : N) (defaultFrozen : bool)
                  (unitName assetName : string) (fee : N).

Record World := mkWorld {
  globals : GlobalState;
  locals : gmap string Profile;
  itxns : list InnerTxn;   (* inner transactions submitted, oldest first *)
  logs : list string       (* events logged, oldest first *)
}.

(** What the ledger supplies to one call. *)
Record Env := mkEnv {
  sender : Account;                      (* Txn.sender *)
  currentApplicationAddress : Account;   (* Global.currentApplicationAddress *)
  currentApplicationBalance : N          (* its balance *)
}.

(** The profile of an account whose keys hold the zero of their types:
    what the embedding takes the local state of an account to be before
    any method has written to it.  (On the machine such an account holds
    no value at all, and a read of one of its keys fails.) *)
Definition noProfile : Profile :=
  mkProfile "" "" "" 0 0 0 "" "" 0 "".

Definition profileIn (l : gmap string Profile) (a : Account) : Profile :=
  default noProfile (l !! a).

Definition profileOf (a : Account) (w : World) : Profile :=
  profileIn (locals w) a.

(** ** Field updates

    [set_f v r] is the record [r] with field [f] replaced by [v]. *)

Definition set_totalCreators (v : N) (g : GlobalState) : GlobalState :=
  mkGlobalState v (totalTipsProcessed g) (totalTipCount g) (minTipAmount g)
    (platformFeeBps g) (adminAddress g) (pendingAdminAddress g) (isPaused g)
    (totalBadgesMinted g) (totalFeesAccumulated g) (bronzeThreshold g)
    (silverThreshold g) (goldThreshold g) (diamondThreshold g).

Definition set_totalTipsProcessed (v : N) (g : GlobalState) : GlobalState :=
  mkGlobalState (totalCreators g) v (totalTipCount g) (minTipAmount g)
    (platformFeeBps g) (adminAddress g) (pendingAdminAddress g) (isPaused g)
    (totalBadgesMinted g) (totalFeesAccumulated g) (bronzeThreshold g)
    (silverThreshold g) (goldThreshold g) (diamondThreshold g).

Definition set_totalTipCount (v : N) (g : GlobalState) : GlobalState :=
  mkGlobalState (totalCreators g) (totalTipsProcessed g) v (minTipAmount g)
    (platformFeeBps g) (adminAddress g) (pendingAdminAddress g) (isPaused g)
    (totalBadgesMinted g) (totalFeesAccumulated g) (bronzeThreshold g)
    (silverThreshold g) (goldThreshold g) (diamondThreshold g).

Definition set_minTipAmount (v : N) (g : GlobalState) : GlobalState :=
  mkGlobalState (totalCreators g) (totalTipsProcessed g) (totalTipCount g) v
    (platformFeeBps g) (adminAddress g) (pendingAdminAddress g) (isPaused g)
    (totalBadgesMinted g) (totalFeesAccumulated g) (bronzeThreshold g)
    (silverThreshold g) (goldThreshold g) (diamondThreshold g).

Definition set_platformFeeBps (v : N) (g : GlobalState) : GlobalState :=
  mkGlobalState (totalCreators g) (totalTipsProcessed g) (totalTipCount g)
    (minTipAmount g) v (adminAddress g) (pendingAdminAddress g) (isPaused g)
    (totalBadgesMinted g) (totalFeesAccumulated g) (bronzeThreshold g)
    (silverThreshold g) (goldThreshold g) (diamondThreshold g).

Definition set_adminAddress (v : bytes) (g : GlobalState) : GlobalState :=
  mkGlobalState (totalCreators g) (totalTipsProcessed g) (totalTipCount g)
    (minTipAmount g) (platformFeeBps g) v (pendingAdminAddress g)
    (isPaused g) (totalBadgesMinted g) (totalFeesAccumulated g)
    (bronzeThreshold g) (silverThreshold g) (goldThreshold g)
    (diamondThreshold g).

Definition set_pendingAdminAddress (v : bytes) (g : GlobalState) : GlobalState :=
  mkGlobalState (totalCreators g) (totalTipsProcessed g) (totalTipCount g)
    (minTipAmount g) (platformFeeBps g) (adminAddress g) v (isPaused g)
    (totalBadgesMinted g) (totalFeesAccumulated g) (bronzeThreshold g)
    (silverThreshold g) (goldThreshold g) (diamondThreshold g).

Definition set_isPaused (v : N) (g : GlobalState) : GlobalState :=
  mkGlobalState (totalCreators g) (totalTipsProcessed g) (totalTipCount g)
    (minTipAmount g) (platformFeeBps g) (adminAddress g)
    (pendingAdminAddress g) v (totalBadgesMinted g) (totalFeesAccumulated g)
    (bronzeThreshold g) (silverThreshold g) (goldThreshold g)
    (diamondThreshold g).

Definition set_totalBadgesMinted (v : N) (g : GlobalState) : GlobalState :=
  mkGlobalState (totalCreators g) (totalTipsProcessed g) (totalTipCount g)
    (minTipAmount g) (platformFeeBps g) (adminAddress g)
    (pendingAdminAddress g) (isPaused g) v (totalFeesAccumulated g)
    (bronzeThreshold g) (silverThreshold g) (goldThreshold g)
    (diamondThreshold g).

Definition set_totalFeesAccumulated (v : N) (g : GlobalState) : GlobalState :=
  mkGlobalState (totalCreators g) (totalTipsProcessed g) (totalTipCount g)
    (minTipAmount g) (platformFeeBps g) (adminAddress g)
    (pendingAdminAddress g) (isPaused g) (totalBadgesMinted g) v
    (bronzeThreshold g) (silverThreshold g) (goldThreshold g)
    (diamondThreshold g).

Definition set_bronzeThreshold (v : N) (g : GlobalState) : GlobalState :=
  mkGlobalState (totalCreators g) (totalTipsProcessed g) (totalTipCount g)
    (minTipAmount g) (platformFeeBps g) (adminAddress g)
    (pendingAdminAddress g) (isPaused g) (totalBadgesMinted g)
    (totalFeesAccumulated g) v (silverThreshold g) (goldThreshold g)
    (diamondThreshold g).

Definition set_silverThreshold (v : N) (g : GlobalState) : GlobalState :=
  mkGlobalState (totalCreators g) (totalTipsProcessed g) (totalTipCount g)
    (minTipAmount g) (platformFeeBps g) (adminAddress g)
    (pendingAdminAddress g) (isPaused g) (totalBadgesMinted g)
    (totalFeesAccumulated g) (bronzeThreshold g) v (goldThreshold g)
    (diamondThreshold g).

Definition set_goldThreshold (v : N) (g : GlobalState) : GlobalState :=
  mkGlobalState (totalCreators g) (totalTipsProcessed g) (totalTipCount g)
    (minTipAmount g) (platformFeeBps g) (adminAddress g)
    (pendingAdminAddress g) (isPaused g) (totalBadgesMinted g)
    (totalFeesAccumulated g) (bronzeThreshold g) (silverThreshold g) v
    (diamondThreshold g).

Definition set_diamondThreshold (v : N) (g : GlobalState) : GlobalState :=
  mkGlobalState (totalCreators g) (totalTipsProcessed g) (totalTipCount g)
    (minTipAmount g) (platformFeeBps g) (adminAddress g)
    (pendingAdminAddress g) (isPaused g) (totalBadgesMinted g)
    (totalFeesAccumulated g) (bronzeThreshold g) (silverThreshold g)
    (goldThreshold g) v.

Definition set_creatorName (v : string) (p : Profile) : Profile :=
  mkProfile v (creatorBio p) (creatorCategory p) (tipsReceived p)
    (tipCount p) (isRegistered p) (profileImageUrl p) (revSplitAddress p)
    (revSplitPercent p) (revSplitName p).

Definition set_creatorBio (v : string) (p : Profile) : Profile :=
  mkProfile (creatorName p) v (creatorCategory p) (tipsReceived p)
    (tipCount p) (isRegistered p) (profileImageUrl p) (revSplitAddress p)
    (revSplitPercent p) (revSplitName p).

Definition set_creatorCategory (v : string) (p : Profile) : Profile :=
  mkProfile (creatorName p) (creatorBio p) v (tipsReceived p) (tipCount p)
    (isRegistered p) (profileImageUrl p) (revSplitAddress p)
    (revSplitPercent p) (revSplitName p).

Definition set_tipsReceived (v : N) (p : Profile) : Profile :=
  mkProfile (creatorName p) (creatorBio p) (creatorCategory p) v
    (tipCount p) (isRegistered p) (profileImageUrl p) (revSplitAddress p)
    (revSplitPercent p) (revSplitName p).

Definition set_tipCount (v : N) (p : Profile) : Profile :=
  mkProfile (creatorName p) (creatorBio p) (creatorCategory p)
    (tipsReceived p) v (isRegistered p) (profileImageUrl p)
    (revSplitAddress p) (revSplitPercent p) (revSplitName p).

Definition set_isRegistered (v : N) (p : Profile) : Profile :=
  mkProfile (creatorName p) (creatorBio p) (creatorCategory p)
    (tipsReceived p) (tipCount p) v (profileImageUrl p) (revSplitAddress p)
    (revSplitPercent p) (revSplitName p).

Definition set_profileImageUrl (v : string) (p : Profile) : Profile :=
  mkProfile (creatorName p) (creatorBio p) (creatorCategory p)
    (tipsReceived p) (tipCount p) (isRegistered p) v (revSplitAddress p)
    (revSplitPercent p) (revSplitName p).

Definition set_revSplitAddress (v : string) (p : Profile) : Profile :=
  mkProfile (creatorName p) (creatorBio p) (creatorCategory p)
    (tipsReceived p) (tipCount p) (isRegistered p) (profileImageUrl p) v
    (revSplitPercent p) (revSplitName p).

Definition set_revSplitPercent (v : N) (p : Profile) : Profile :=
  mkProfile (creatorName p) (creatorBio p) (creatorCategory p)
    (tipsReceived p) (tipCount p) (isRegistered p) (profileImageUrl p)
    (revSplitAddress p) v (revSplitName p).

Definition set_revSplitName (v : string) (p : Profile) : Profile :=
  mkProfile (creatorName p) (creatorBio p) (creatorCategory p)
    (tipsReceived p) (tipCount p) (isRegistered p) (profileImageUrl p)
    (revSplitAddress p) (revSplitPercent p) v.

(** ** The monad of method bodies *)

Inductive outcome (A : Type) : Type :=
| Done (a : A)
| Abort (msg : string).
Arguments Done {A} a.
Arguments Abort {A} msg.

Definition M (A : Type) : Type := World -> outcome A * World.

Definition ret {A} (a : A) : M A := fun w => (Done a, w).

Definition bind {A B} (c : M A) (k : A -> M B) : M B :=
  fun w =>
    match c w with
    | (Done a, w') => k a w'
    | (Abort msg, w') => (Abort msg, w')
    end.

Declare Scope tipjar_scope.
Delimit Scope tipjar_scope with tj.
Notation "x <~ c ; k" := (bind c (fun x => k))
  (at level 20, c at level 100, k at level 200, only parsing) : tipjar_scope.
Notation "c ;> k" := (bind c (fun _ => k))
  (at level 100, k at level 200, right associativity, only parsing) : tipjar_scope.
Local Open Scope tipjar_scope.

(** [assert(cond, msg)] *)
Definition assert (cond : bool) (msg : string) : M unit :=
  fun w => if cond then (Done tt, w) else (Abort msg, w).

(** The result of a checked operation, or the machine's failure. *)
Definition checked (r : option N) : M N :=
  fun w =>
    match r with
    | Some n => (Done n, w)
    | None => (Abort "arithmetic failure", w)
    end.

(** [this.key.value] and [this.key.value = v] *)
Definition gread {A} (key : GlobalState -> A) : M A :=
  fun w => (Done (key (globals w)), w).

Definition gwrite (upd : GlobalState -> GlobalState) : M unit :=
  fun w => (Done tt, mkWorld (upd (globals w)) (locals w) (itxns w) (logs w)).

(** [this.key(a).value] and [this.key(a).value = v].  [lread] returns
    the value of the key, the zero of its type when nothing was written
    under it; the machine's read fails in that case. *)
Definition lread {A} (a : Account) (key : Profile -> A) : M A :=
  fun w => (Done (key (profileOf a w)), w).

Definition lwrite (a : Account) (upd : Profile -> Profile) : M unit :=
  fun w =>
    (Done tt,
     mkWorld (globals w) (<[a := upd (profileOf a w)]> (locals w))
             (itxns w) (logs w)).

(** [itxn. ... .submit()] and [log(s)] *)
Definition submit (t : InnerTxn) : M unit :=
  fun w => (Done tt, mkWorld (globals w) (locals w) (itxns w ++ [t]) (logs w)).

Definition log (s : string) : M unit :=
  fun w => (Done tt, mkWorld (globals w) (locals w) (itxns w) (logs w ++ [s])).

(** ** Constants *)

Definition MIN_CONTRACT_BALANCE : N := 100000.
Definition MAX_NAME_LEN : N := 50.
Definition MAX_BIO_LEN : N := 200.
Definition MAX_CATEGORY_LEN : N := 20.
Definition MAX_IMAGE_LEN : N := 200.
Definition MAX_COLLAB_NAME_LEN : N := 50.
Definition ADDR_LEN : N := 58.

(** ** Guards *)

Definition assertNotPaused : M unit :=
  p <~ gread isPaused ;
  assert (p =? 0) "Contract is paused".

Definition assertAdmin (e : Env) : M unit :=
  a <~ gread adminAddress ;
  assert (String.eqb (sender e) a) "Only admin can perform this action".

Definition assertRegistered (e : Env) : M unit :=
  r <~ lread (sender e) isRegistered ;
  assert (r =? 1) "Not a registered creator".

(** ** Methods *)

Definition createApplication (e : Env) : M unit :=
  gwrite (set_adminAddress (sender e)) ;>
  gwrite (set_pendingAdminAddress "") ;>
  gwrite (set_totalCreators 0) ;>
  gwrite (set_totalTipsProcessed 0) ;>
  gwrite (set_totalTipCount 0) ;>
  gwrite (set_totalFeesAccumulated 0) ;>
  gwrite (set_minTipAmount 100000) ;>
  gwrite (set_platformFeeBps 100) ;>
  gwrite (set_isPaused 0) ;>
  gwrite (set_totalBadgesMinted 0) ;>
  gwrite (set_bronzeThreshold 5000000) ;>
  gwrite (set_silverThreshold 25000000) ;>
  gwrite (set_goldThreshold 100000000) ;>
  gwrite (set_diamondThreshold 500000000) ;>
  log "TipJar:Created".

Definition pauseContract (e : Env) : M string :=
  assertAdmin e ;>
  gwrite (set_isPaused 1) ;>
  log "TipJar:Paused" ;>
  ret "Contract paused".

Definition unpauseContract (e : Env) : M string :=
  assertAdmin e ;>
  gwrite (set_isPaused 0) ;>
  log "TipJar:Unpaused" ;>
  ret "Contract unpaused".

Definition transferAdmin (e : Env) (newAdmin : Account) : M string :=
  assertAdmin e ;>
  assert (negb (String.eqb newAdmin (sender e)))
         "Cannot transfer to current admin" ;>
  gwrite (set_pendingAdminAddress newAdmin) ;>
  log "TipJar:AdminTransferInitiated" ;>
  ret "Admin transfer initiated - new admin must call acceptAdmin()".

Definition acceptAdmin (e : Env) : M string :=
  p <~ gread pendingAdminAddress ;
  assert (negb (String.eqb p "")) "No pending admin transfer" ;>
  p' <~ gread pendingAdminAddress ;
  assert (String.eqb (sender e) p') "Only pending admin can accept" ;>
  gwrite (set_adminAddress (sender e)) ;>
  gwrite (set_pendingAdminAddress "") ;>
  log "TipJar:AdminTransferred" ;>
  ret "Admin role accepted".

Definition registerCreator (e : Env) (name bio category profileImage : string)
  : M string :=
  assertNotPaused ;>
  r <~ lread (sender e) isRegistered ;
  assert (negb (r =? 1)) "Already registered as a creator" ;>
  assert (0 <? strlen name) "Name cannot be empty" ;>
  assert (0 <? strlen bio) "Bio cannot be empty" ;>
  assert (0 <? strlen category) "Category cannot be empty" ;>
  assert (strlen name <=? MAX_NAME_LEN) "Name exceeds 50 character limit" ;>
  assert (strlen bio <=? MAX_BIO_LEN) "Bio exceeds 200 character limit" ;>
  assert (strlen category <=? MAX_CATEGORY_LEN)
         "Category exceeds 20 character limit" ;>
  assert (strlen profileImage <=? MAX_IMAGE_LEN)
         "Profile image URL exceeds 200 character limit" ;>
  lwrite (sender e) (set_creatorName name) ;>
  lwrite (sender e) (set_creatorBio bio) ;>
  lwrite (sender e) (set_creatorCategory category) ;>
  lwrite (sender e) (set_profileImageUrl profileImage) ;>
  lwrite (sender e) (set_tipsReceived 0) ;>
  lwrite (sender e) (set_tipCount 0) ;>
  lwrite (sender e) (set_isRegistered 1) ;>
  lwrite (sender e) (set_revSplitAddress "") ;>
  lwrite (sender e) (set_revSplitPercent 0) ;>
  lwrite (sender e) (set_revSplitName "") ;>
  n <~ gread totalCreators ;
  n' <~ checked (add64 n 1) ;
  gwrite (set_totalCreators n') ;>
  log "TipJar:CreatorRegistered" ;>
  ret ("Creator " ++ name ++ " registered successfully")%string.

Definition updateProfile (e : Env) (name bio category profileImage : string)
  : M string :=
  assertNotPaused ;>
  assertRegistered e ;>
  assert ((0 <? strlen name) && (strlen name <=? MAX_NAME_LEN))
         "Name must be 1-50 characters" ;>
  assert ((0 <? strlen bio) && (strlen bio <=? MAX_BIO_LEN))
         "Bio must be 1-200 characters" ;>
  assert ((0 <? strlen category) && (strlen category <=? MAX_CATEGORY_LEN))
         "Category must be 1-20 characters" ;>
  assert (strlen profileImage <=? MAX_IMAGE_LEN)
         "Profile image URL exceeds 200 character limit" ;>
  lwrite (sender e) (set_creatorName name) ;>
  lwrite (sender e) (set_creatorBio bio) ;>
  lwrite (sender e) (set_creatorCategory category) ;>
  lwrite (sender e) (set_profileImageUrl profileImage) ;>
  log "TipJar:ProfileUpdated" ;>
  ret "Profile updated successfully".

Definition setRevenueSplit (e : Env) (collaboratorAddr collaboratorName : string)
    (splitPercent : N) : M string :=
  assertNotPaused ;>
  assertRegistered e ;>
  assert (1 <=? splitPercent)
         "Split must be at least 1%. Use removeRevenueSplit to clear" ;>
  assert (splitPercent <=? 50) "Split cannot exceed 50%" ;>
  assert (strlen collaboratorAddr =? ADDR_LEN)
         "Invalid collaborator address length" ;>
  assert (0 <? strlen collaboratorName) "Collaborator name cannot be empty" ;>
  assert (strlen collaboratorName <=? MAX_COLLAB_NAME_LEN)
         "Collaborator name exceeds 50 character limit" ;>
  lwrite (sender e) (set_revSplitAddress collaboratorAddr) ;>
  lwrite (sender e) (set_revSplitName collaboratorName) ;>
  lwrite (sender e) (set_revSplitPercent splitPercent) ;>
  log "TipJar:RevenueSplitSet" ;>
  ret "Revenue split configured".

Definition removeRevenueSplit (e : Env) : M string :=
  assertNotPaused ;>
  assertRegistered e ;>
  lwrite (sender e) (set_revSplitAddress "") ;>
  lwrite (sender e) (set_revSplitName "") ;>
  lwrite (sender e) (set_revSplitPercent 0) ;>
  log "TipJar:RevenueSplitRemoved" ;>
  ret "Revenue split removed".

Definition getRevenueSplitPercent (creator : Account) : M N :=
  lread creator revSplitPercent.

Definition sendTip (e : Env) (creator : Account) (message : string)
    (tipPayment : PaymentTxn) : M string :=
  assertNotPaused ;>
  r <~ lread creator isRegistered ;
  assert (r =? 1) "Recipient is not a registered creator" ;>
  let tipAmount := amount tipPayment in
  minTip <~ gread minTipAmount ;
  assert (minTip <=? tipAmount) "Tip amount below minimum" ;>
  assert (String.eqb (receiver tipPayment) (currentApplicationAddress e))
         "Payment must be sent to the contract" ;>
  assert (String.eqb (closeRemainderTo tipPayment) zeroAddress)
         "Close remainder to must be zero address" ;>
  assert (String.eqb (rekeyTo tipPayment) zeroAddress)
         "Rekey to must be zero address" ;>
  assert (negb (String.eqb (sender e) creator)) "Cannot tip yourself" ;>
  bps <~ gread platformFeeBps ;
  scaled <~ checked (mul64 tipAmount bps) ;
  feeAmount <~ checked (div64 scaled 10000) ;
  afterFee <~ checked (sub64 tipAmount feeAmount) ;
  fees <~ gread totalFeesAccumulated ;
  fees' <~ checked (add64 fees feeAmount) ;
  gwrite (set_totalFeesAccumulated fees') ;>
  splitPercent <~ lread creator revSplitPercent ;
  (if 0 <? splitPercent then
     weighted <~ checked (mul64 afterFee splitPercent) ;
     collaboratorAmount <~ checked (div64 weighted 100) ;
     creatorAmount <~ checked (sub64 afterFee collaboratorAmount) ;
     submit (ItxnPayment creator creatorAmount 0)
   else
     submit (ItxnPayment creator afterFee 0)) ;>
  received <~ lread creator tipsReceived ;
  received' <~ checked (add64 received tipAmount) ;
  lwrite creator (set_tipsReceived received') ;>
  count <~ lread creator tipCount ;
  count' <~ checked (add64 count 1) ;
  lwrite creator (set_tipCount count') ;>
  processed <~ gread totalTipsProcessed ;
  processed' <~ checked (add64 processed tipAmount) ;
  gwrite (set_totalTipsProcessed processed') ;>
  tips <~ gread totalTipCount ;
  tips' <~ checked (add64 tips 1) ;
  gwrite (set_totalTipCount tips') ;>
  log "TipJar:TipSent" ;>
  ret ("Tip of " ++ show_uint64 tipAmount ++ " microALGO sent to creator")%string.

Definition tierNameOf (badgeTier : N) : string :=
  if badgeTier =? 1 then "Bronze"
  else if badgeTier =? 2 then "Silver"
  else if badgeTier =? 3 then "Gold"
  else "Diamond".

Definition mintBadge (e : Env) (supporter : Account) (badgeTier : N)
    (creatorAddr : Account) : M string :=
  assertNotPaused ;>
  a <~ gread adminAddress ;
  assert (String.eqb (sender e) a || String.eqb (sender e) creatorAddr)
         "Only admin or creator can mint badges" ;>
  assert ((1 <=? badgeTier) && (badgeTier <=? 4)) "Invalid badge tier" ;>
  r <~ lread creatorAddr isRegistered ;
  assert (r =? 1) "Creator is not registered" ;>
  let tierName := tierNameOf badgeTier in
  submit (ItxnAssetConfig 1 0 false "TJBADGE"
            ("TipJar " ++ tierName ++ " Badge")%string 0) ;>
  n <~ gread totalBadgesMinted ;
  n' <~ checked (add64 n 1) ;
  gwrite (set_totalBadgesMinted n') ;>
  log "TipJar:BadgeMinted" ;>
  ret (tierName ++ " badge minted successfully")%string.

(** Read-only getters. *)

Definition assertIsCreator (creator : Account) : M unit :=
  r <~ lread creator isRegistered ;
  assert (r =? 1) "Not a registered creator".

Definition verifyTipRecord (creator : Account) : M N :=
  assertIsCreator creator ;> lread creator tipsReceived.

Definition getBronzeThreshold : M N := gread bronzeThreshold.

Definition getTotalBadgesMinted : M N := gread totalBadgesMinted.

Definition getCreatorName (creator : Account) : M string :=
  assertIsCreator creator ;> lread creator creatorName.

Definition getCreatorBio (creator : Account) : M string :=
  assertIsCreator creator ;> lread creator creatorBio.

Definition getCreatorCategory (creator : Account) : M string :=
  assertIsCreator creator ;> lread creator creatorCategory.

Definition getTipsReceived (creator : Account) : M N :=
  assertIsCreator creator ;> lread creator tipsReceived.

Definition getTipCount (creator : Account) : M N :=
  assertIsCreator creator ;> lread creator tipCount.

Definition getPlatformStats : M N := gread totalTipsProcessed.

Definition getTotalCreators : M N := gread totalCreators.

Definition getTotalTipCount : M N := gread totalTipCount.

(** Admin settings. *)

Definition setMinTipAmount (e : Env) (newMin : N) : M string :=
  assertAdmin e ;>
  assert (10000 <=? newMin)
         "Minimum tip must be at least 0.01 ALGO (10_000 microALGO)" ;>
  gwrite (set_minTipAmount newMin) ;>
  log "TipJar:MinTipUpdated" ;>
  ret "Minimum tip amount updated".

Definition setPlatformFee (e : Env) (newFeeBps : N) : M string :=
  assertAdmin e ;>
  assert (newFeeBps <=? 1000) "Fee cannot exceed 10%" ;>
  gwrite (set_platformFeeBps newFeeBps) ;>
  log "TipJar:FeeUpdated" ;>
  ret "Platform fee updated".

Definition withdrawPlatformFees (e : Env) (amount : N) : M string :=
  assertAdmin e ;>
  assert (0 <? amount) "Withdrawal amount must be positive" ;>
  fees <~ gread totalFeesAccumulated ;
  assert (amount <=? fees) "Amount exceeds accumulated fees" ;>
  let contractBalance := currentApplicationBalance e in
  rest <~ checked (sub64 contractBalance amount) ;
  assert (MIN_CONTRACT_BALANCE <=? rest)
         "Withdrawal would leave contract below minimum balance" ;>
  submit (ItxnPayment (sender e) amount 0) ;>
  fees0 <~ gread totalFeesAccumulated ;
  fees' <~ checked (sub64 fees0 amount) ;
  gwrite (set_totalFeesAccumulated fees') ;>
  log "TipJar:FeesWithdrawn" ;>
  ret "Platform fees withdrawn".

Definition setBadgeThresholds (e : Env) (bronze silver gold diamond : N)
  : M string :=
  assertAdmin e ;>
  assert ((bronze <? silver) && (silver <? gold) && (gold <? diamond))
         "Thresholds must be ascending" ;>
  gwrite (set_bronzeThreshold bronze) ;>
  gwrite (set_silverThreshold silver) ;>
  gwrite (set_goldThreshold gold) ;>
  gwrite (set_diamondThreshold diamond) ;>
  log "TipJar:ThresholdsUpdated" ;>
  ret "Badge thresholds updated".

(** State queries. *)

Definition checkRegistration (account : Account) : M N :=
  lread account isRegistered.

Definition getMinTipAmount : M N := gread minTipAmount.

Definition getPlatformFee : M N := gread platformFeeBps.

Definition getIsPaused : M N := gread isPaused.

Definition getTotalFeesAccumulated : M N := gread totalFeesAccumulated.

Definition getAdminAddress : M bytes := gread adminAddress.

(** ** Application calls *)

(** The methods a caller can invoke once the application exists.
    [createApplication] is the creation call: it runs once, when the
    application is made, and is not among them. *)
Inductive Call :=
| PauseContract
| UnpauseContract
| TransferAdmin (newAdmin : Account)
| AcceptAdmin
| RegisterCreator (name bio category profileImage : string)
| UpdateProfile (name bio category profileImage : string)
| SetRevenueSplit (collaboratorAddr collaboratorName : string) (splitPercent : N)
| RemoveRevenueSplit
| GetRevenueSplitPercent (creator : Account)
| SendTip (creator : Account) (message : string) (tipPayment : PaymentTxn)
| MintBadge (supporter : Account) (badgeTier : N) (creatorAddr : Account)
| VerifyTipRecord (creator : Account)
| GetBronzeThreshold
| GetTotalBadgesMinted
| GetCreatorName (creator : Account)
| GetCreatorBio (creator : Account)
| GetCreatorCategory (creator : Account)
| GetTipsReceived (creator : Account)
| GetTipCount (creator : Account)
| GetPlatformStats
| GetTotalCreators
| GetTotalTipCount
| SetMinTipAmount (newMin : N)
| SetPlatformFee (newFeeBps : N)
| WithdrawPlatformFees (amount : N)
| SetBadgeThresholds (bronze silver gold diamond : N)
| CheckRegistration (account : Account)
| GetMinTipAmount
| GetPlatformFee
| GetIsPaused
| GetTotalFeesAccumulated
| GetAdminAddress.

(** A method's return value. *)
Inductive Ret :=
| RetString (s : string)
| RetUint64 (n : N)
| RetBytes (b : bytes).

Definition returning {A} (wrap : A -> Ret) (c : M A) : M Ret :=
  x <~ c ; ret (wrap x).

Definition body (e : Env) (c : Call) : M Ret :=
  match c with
  | PauseContract => returning RetString (pauseContract e)
  | UnpauseContract => returning RetString (unpauseContract e)
  | TransferAdmin newAdmin => returning RetString (transferAdmin e newAdmin)
  | AcceptAdmin => returning RetString (acceptAdmin e)
  | RegisterCreator n b c i => returning RetString (registerCreator e n b c i)
  | UpdateProfile n b c i => returning RetString (updateProfile e n b c i)
  | SetRevenueSplit a n p => returning RetString (setRevenueSplit e a n p)
  | RemoveRevenueSplit => returning RetString (removeRevenueSplit e)
  | GetRevenueSplitPercent a => returning RetUint64 (getRevenueSplitPercent a)
  | SendTip a m p => returning RetString (sendTip e a m p)
  | MintBadge s t a => returning RetString (mintBadge e s t a)
  | VerifyTipRecord a => returning RetUint64 (verifyTipRecord a)
  | GetBronzeThreshold => returning RetUint64 getBronzeThreshold
  | GetTotalBadgesMinted => returning RetUint64 getTotalBadgesMinted
  | GetCreatorName a => returning RetString (getCreatorName a)
  | GetCreatorBio a => returning RetString (getCreatorBio a)
  | GetCreatorCategory a => returning RetString (getCreatorCategory a)
  | GetTipsReceived a => returning RetUint64 (getTipsReceived a)
  | GetTipCount a => returning RetUint64 (getTipCount a)
  | GetPlatformStats => returning RetUint64 getPlatformStats
  | GetTotalCreators => returning RetUint64 getTotalCreators
  | GetTotalTipCount => returning RetUint64 getTotalTipCount
  | SetMinTipAmount n => returning RetString (setMinTipAmount e n)
  | SetPlatformFee n => returning RetString (setPlatformFee e n)
  | WithdrawPlatformFees n => returning RetString (withdrawPlatformFees e n)
  | SetBadgeThresholds b s g d => returning RetString (setBadgeThresholds e b s g d)
  | CheckRegistration a => returning RetUint64 (checkRegistration a)
  | GetMinTipAmount => returning RetUint64 getMinTipAmount
  | GetPlatformFee => returning RetUint64 getPlatformFee
  | GetIsPaused => returning RetUint64 getIsPaused
  | GetTotalFeesAccumulated => returning RetUint64 getTotalFeesAccumulated
  | GetAdminAddress => returning RetBytes getAdminAddress
  end.

(** One application call as the ledger commits it: all of the body's
    effects when the body returns, none when it fails. *)
Definition call (e : Env) (c : Call) (w : World) : outcome Ret * World :=
  match body e c w with
  | (Done r, w') => (Done r, w')
  | (Abort msg, _) => (Abort msg, w)
  end.

(** The state a call leaves. *)
Definition step (w : World) (ec : Env * Call) : World :=
  snd (call (fst ec) (snd ec) w).

(** The state before the creation call: no key holds a value. *)
Definition blank : World :=
  mkWorld (mkGlobalState 0 0 0 0 0 "" "" 0 0 0 0 0 0 0) ∅ [] [].

(** The state the creation call by [e] leaves. *)
Definition created (e : Env) : World := snd (createApplication e blank).

(** The state after creation by [e] followed by the calls [cs]. *)
Definition run (e : Env) (cs : list (Env * Call)) : World :=
  fold_left step cs (created e).

Definition rejects {A} (r : outcome A * World) : Prop :=
  exists msg, fst r = Abort msg.

Definition succeeds {A} (r : outcome A * World) : Prop :=
  exists a, fst r = Done a.

(** ** Vocabulary of the properties *)

(** The sum of [f] over the profiles of the store. *)
Definition sumOver (f : Profile -> N) (l : gmap string Profile) : N :=
  map_fold (fun _ p acc => acc + f p) 0 l.

(** What a profile contributes to the sums over registered profiles. *)
Definition tipsCredited (p : Profile) : N :=
  if isRegistered p =? 1 then tipsReceived p else 0.

Definition countCredited (p : Profile) : N :=
  if isRegistered p =? 1 then tipCount p else 0.

Definition registeredOne (p : Profile) : N :=
  if isRegistered p =? 1 then 1 else 0.

Definition sumTipsReceived (w : World) : N := sumOver tipsCredited (locals w).
Definition sumTipCount (w : World) : N := sumOver countCredited (locals w).
Definition registeredProfiles (w : World) : N := sumOver registeredOne (locals w).

(** 1 when the call [ec], made in [w], is a successful [registerCreator]
    by [a], and 0 otherwise. *)
Definition registersAs (a : Account) (w : World) (ec : Env * Call) : N :=
  match snd ec, fst (call (fst ec) (snd ec) w) with
  | RegisterCreator _ _ _ _, Done _ =>
      if String.eqb (sender (fst ec)) a then 1 else 0
  | _, _ => 0
  end.

(** The number of successful [registerCreator] calls made by [a] in the
    calls [cs], run from [w]. *)
Fixpoint registrationsBy (a : Account) (w : World) (cs : list (Env * Call)) : N :=
  match cs with
  | [] => 0
  | ec :: cs' => registersAs a w ec + registrationsBy a (step w ec) cs'
  end.

(** The methods that start with [assertAdmin]. *)
Definition adminOnly (c : Call) : bool :=
  match c with
  | PauseContract | UnpauseContract | TransferAdmin _
  | SetMinTipAmount _ | SetPlatformFee _ | WithdrawPlatformFees _
  | SetBadgeThresholds _ _ _ _ => true
  | _ => false
  end.

Definition sameCounters (w w' : World) : Prop :=
  totalCreators (globals w') = totalCreators (globals w)
  /\ totalTipsProcessed (globals w') = totalTipsProcessed (globals w)
  /\ totalTipCount (globals w') = totalTipCount (globals w).

Definition sameAdmin (w w' : World) : Prop :=
  adminAddress (globals w') = adminAddress (globals w)
  /\ pendingAdminAddress (globals w') = pendingAdminAddress (globals w).

(** What one committed call does to the profiles, the platform counters,
    the two admin slots and the inner transactions. *)
Inductive effect (e : Env) (c : Call) (w w' : World) : Prop :=
| EffNone :
    locals w' = locals w -> itxns w' = itxns w ->
    sameCounters w w' -> sameAdmin w w' ->
    effect e c w w'
| EffRegister n b cat i :
    c = RegisterCreator n b cat i ->
    isRegistered (profileOf (sender e) w) <> 1 ->
    locals w' = <[sender e := mkProfile n b cat 0 0 1 i "" 0 ""]> (locals w) ->
    totalCreators (globals w') = totalCreators (globals w) + 1 ->
    totalTipsProcessed (globals w') = totalTipsProcessed (globals w) ->
    totalTipCount (globals w') = totalTipCount (globals w) ->
    itxns w' = itxns w -> sameAdmin w w' ->
    effect e c w w'
| EffTip a m p paid :
    c = SendTip a m p ->
    isRegistered (profileOf a w) = 1 ->
    locals w' =
      <[a := set_tipCount (tipCount (profileOf a w) + 1)
               (set_tipsReceived (tipsReceived (profileOf a w) + amount p)
                  (profileOf a w))]> (locals w) ->
    totalCreators (globals w') = totalCreators (globals w) ->
    totalTipsProcessed (globals w') = totalTipsProcessed (globals w) + amount p ->
    totalTipCount (globals w') = totalTipCount (globals w) + 1 ->
    itxns w' = (itxns w ++ [ItxnPayment a paid 0])%list -> sameAdmin w w' ->
    effect e c w w'
| EffEdit p' :
    isRegistered (profileOf (sender e) w) = 1 ->
    locals w' = <[sender e := p']> (locals w) ->
    isRegistered p' = 1 ->
    tipsReceived p' = tipsReceived (profileOf (sender e) w) ->
    tipCount p' = tipCount (profileOf (sender e) w) ->
    itxns w' = itxns w -> sameCounters w w' -> sameAdmin w w' ->
    effect e c w w'
| EffTransfer newAdmin :
    c = TransferAdmin newAdmin ->
    sender e = adminAddress (globals w) ->
    newAdmin <> sender e ->
    adminAddress (globals w') = adminAddress (globals w) ->
    pendingAdminAddress (globals w') = newAdmin ->
    locals w' = locals w -> itxns w' = itxns w -> sameCounters w w' ->
    effect e c w w'
| EffAccept :
    c = AcceptAdmin ->
    pendingAdminAddress (globals w) <> "" ->
    sender e = pendingAdminAddress (globals w) ->
    adminAddress (globals w') = sender e ->
    pendingAdminAddress (globals w') = "" ->
    locals w' = locals w -> itxns w' = itxns w -> sameCounters w w' ->
    effect e c w w'
| EffWithdraw amt :
    c = WithdrawPlatformFees amt ->
    sender e = adminAddress (globals w) ->
    amt <= totalFeesAccumulated (globals w) ->
    itxns w' = (itxns w ++ [ItxnPayment (sender e) amt 0])%list ->
    locals w' = locals w -> sameCounters w w' -> sameAdmin w w' ->
    effect e c w w'
| EffMint s t a :
    c = MintBadge s t a ->
    itxns w' =
      (itxns w ++ [ItxnAssetConfig 1 0 false "TJBADGE"
                     ("TipJar " ++ tierNameOf t ++ " Badge")%string 0])%list ->
    locals w' = locals w -> sameCounters w w' -> sameAdmin w w' ->
    effect e c w w'.

(** The two counters of a profile, and the two platform totals. *)
Definition counters (a : Account) (w : World) : N * N :=
  (tipsReceived (profileOf a w), tipCount (profileOf a w)).

Definition totals (w : World) : N * N :=
  (totalTipsProcessed (globals w), totalTipCount (globals w)).

(** The sums over registered profiles agree with the platform totals. *)
Definition conserved (w : World) : Prop :=
  sumTipsReceived w = totalTipsProcessed (globals w)
  /\ sumTipCount w = totalTipCount (globals w).

(** Every account's [isRegistered] is 0 or 1, and [totalCreators] counts
    the registered profiles. *)
Definition registryOk (w : World) : Prop :=
  (forall a, isRegistered (profileOf a w) = 0 \/ isRegistered (profileOf a w) = 1)
  /\ totalCreators (globals w) = registeredProfiles w.

(** A pending admin, when there is one, is not the current admin. *)
Definition pendingDiffers (w : World) : Prop :=
  pendingAdminAddress (globals w) = ""
  \/ pendingAdminAddress (globals w) <> adminAddress (globals w).

(** The methods that start with [assertNotPaused]. *)
Definition pauseGated (c : Call) : bool :=
  match c with
  | RegisterCreator _ _ _ _ | UpdateProfile _ _ _ _ | SetRevenueSplit _ _ _
  | RemoveRevenueSplit | SendTip _ _ _ | MintBadge _ _ _ => true
  | _ => false
  end.

(** The mutating methods that do not start with [assertNotPaused]. *)
Definition pauseExempt (c : Call) : bool :=
  match c with
  | PauseContract | UnpauseContract | TransferAdmin _ | AcceptAdmin
  | SetMinTipAmount _ | SetPlatformFee _ | WithdrawPlatformFees _
  | SetBadgeThresholds _ _ _ _ => true
  | _ => false
  end.

(** The checks such a method makes; none of them reads [isPaused]. *)
Definition ownChecks (e : Env) (c : Call) (w : World) : Prop :=
  match c with
  | PauseContract | UnpauseContract => sender e = adminAddress (globals w)
  | TransferAdmin newAdmin =>
      sender e = adminAddress (globals w) /\ newAdmin <> sender e
  | AcceptAdmin =>
      pendingAdminAddress (globals w) <> ""
      /\ sender e = pendingAdminAddress (globals w)
  | SetMinTipAmount newMin =>
      sender e = adminAddress (globals w) /\ 10000 <= newMin
  | SetPlatformFee newFeeBps =>
      sender e = adminAddress (globals w) /\ newFeeBps <= 1000
  | WithdrawPlatformFees amt =>
      sender e = adminAddress (globals w)
      /\ 0 < amt
      /\ amt <= totalFeesAccumulated (globals w)
      /\ amt + MIN_CONTRACT_BALANCE <= currentApplicationBalance e
  | SetBadgeThresholds bronze silver gold diamond =>
      sender e = adminAddress (globals w)
      /\ bronze < silver /\ silver < gold /\ gold < diamond
  | _ => False
  end.

(** The account an address text names.  [setRevenueSplit] takes the
    collaborator as the 58-character text of an address: the base32 form
    (alphabet A-Z, 2-7) of the 32-byte public key followed by a 4-byte
    checksum.  The key is the first 256 bits of the decoding. *)
Definition base32Digit (ch : ascii) : option N :=
  let n := N_of_ascii ch in
  if (65 <=? n) && (n <=? 90) then Some (n - 65)
  else if (50 <=? n) && (n <=? 55) then Some (n - 24)
  else None.

Definition fiveBits (d : N) : list bool :=
  [N.testbit d 4; N.testbit d 3; N.testbit d 2; N.testbit d 1; N.testbit d 0].

Fixpoint base32Bits (s : string) : option (list bool) :=
  match s with
  | EmptyString => Some []
  | String ch s' =>
      match base32Digit ch, base32Bits s' with
      | Some d, Some bits => Some (fiveBits d ++ bits)%list
      | _, _ => None
      end
  end.

Fixpoint bytesOfBits (n : nat) (bits : list bool) : string :=
  match n, bits with
  | S n', b7 :: b6 :: b5 :: b4 :: b3 :: b2 :: b1 :: b0 :: rest =>
      String (Ascii b0 b1 b2 b3 b4 b5 b6 b7) (bytesOfBits n' rest)
  | _, _ => EmptyString
  end.

Definition addressKey (address : string) : option Account :=
  if strlen address =? ADDR_LEN then
    match base32Bits address with
    | Some bits => Some (bytesOfBits 32 bits)
    | None => None
    end
  else None.

(** ** Concrete accounts and states used in the examples *)

Definition deployer : Account := "DDDDDDDDDDDDDDDDDDDDDDDDDDDDDDDD".
Definition creatorC : Account := "CCCCCCCCCCCCCCCCCCCCCCCCCCCCCCCC".
Definition supporterS : Account := "SSSSSSSSSSSSSSSSSSSSSSSSSSSSSSSS".
Definition newcomerN : Account := "NNNNNNNNNNNNNNNNNNNNNNNNNNNNNNNN".
Definition appAccount : Account := "TTTTTTTTTTTTTTTTTTTTTTTTTTTTTTTT".

Definition envOf (a : Account) : Env := mkEnv a appAccount 10000000.

(** A well-formed tip of [n] units: paid to the contract, nothing else set. *)
Definition tipOf (n : N) : PaymentTxn :=
  mkPaymentTxn n appAccount zeroAddress zeroAddress.

Definition registerC : Env * Call :=
  (envOf creatorC, RegisterCreator "C" "paints" "art" "").

(** [deployer] created the application and [creatorC] registered. *)
Definition worldC : World := run (envOf deployer) [registerC].

(** The address texts of [creatorC] and [newcomerN]. *)
Definition addressC : string :=
  "INBUGQ2DINBUGQ2DINBUGQ2DINBUGQ2DINBUGQ2DINBUGQ2DINBZ4HTXZA".

Definition addressN : string :=
  "JZHE4TSOJZHE4TSOJZHE4TSOJZHE4TSOJZHE4TSOJZHE4TSOJZHFLICIIA".

Definition tipC : Env * Call :=
  (envOf supporterS, SendTip creatorC "thanks" (tipOf 2000000)).

(** [supporterS] tipped [creatorC] 2,000,000 units. *)
Definition tippedWorld : World := step worldC tipC.

(** [creatorC] gives 20% to the collaborator [newcomerN]. *)
Definition splitWorld : World :=
  run (envOf deployer)
      [registerC; (envOf creatorC, SetRevenueSplit addressN "K" 20)].

Definition tipAfterSplit : Env * Call :=
  (envOf supporterS, SendTip creatorC "thanks" (tipOf 1000000)).

(** The admin proposed [newcomerN] as the next admin. *)
Definition handoffWorld : World :=
  run (envOf deployer) [(envOf deployer, TransferAdmin newcomerN)].

(** A handoff to [newcomerN] is pending and the contract is paused. *)
Definition pausedHandoffWorld : World :=
  run (envOf deployer)
      [(envOf deployer, TransferAdmin newcomerN); (envOf deployer, PauseContract)].

(** [creatorC] edits its profile. *)
Definition editC : Call :=
  UpdateProfile "C" "paints murals" "art" "https://example.org/c.png".

(** ** Vocabulary of the further properties *)

(** The amounts [sendTip] computes for a tip [p] to [a] in state [w]. *)
Definition feeOf (w : World) (p : PaymentTxn) : N :=
  amount p * platformFeeBps (globals w) / 10000.

Definition afterFeeOf (w : World) (p : PaymentTxn) : N :=
  amount p - feeOf w p.

Definition shareOf (w : World) (a : Account) (p : PaymentTxn) : N :=
  afterFeeOf w p * revSplitPercent (profileOf a w) / 100.

Definition paidOf (w : World) (a : Account) (p : PaymentTxn) : N :=
  if 0 <? revSplitPercent (profileOf a w)
  then afterFeeOf w p - shareOf w a p
  else afterFeeOf w p.

(** The state with other globals, profiles, one more inner transaction,
    one more event. *)
Definition withGlobals (g : GlobalState) (w : World) : World :=
  mkWorld g (locals w) (itxns w) (logs w).

Definition withProfile (a : Account) (p : Profile) (w : World) : World :=
  mkWorld (globals w) (<[a := p]> (locals w)) (itxns w) (logs w).

Definition withItxn (t : InnerTxn) (w : World) : World :=
  mkWorld (globals w) (locals w) (itxns w ++ [t]) (logs w).

Definition withLog (s : string) (w : World) : World :=
  mkWorld (globals w) (locals w) (itxns w) (logs w ++ [s]).

(** What a committed call leaves: the state as it was (a rejected call,
    or a getter), or the state a method writes when all its checks pass. *)
Inductive committed (e : Env) (w : World) : Call -> World -> Prop :=
| CoSame c : committed e w c w
| CoPause :
    sender e = adminAddress (globals w) ->
    committed e w PauseContract
      (withLog "TipJar:Paused" (withGlobals (set_isPaused 1 (globals w)) w))
| CoUnpause :
    sender e = adminAddress (globals w) ->
    committed e w UnpauseContract
      (withLog "TipJar:Unpaused" (withGlobals (set_isPaused 0 (globals w)) w))
| CoTransfer newAdmin :
    sender e = adminAddress (globals w) ->
    newAdmin <> sender e ->
    committed e w (TransferAdmin newAdmin)
      (withLog "TipJar:AdminTransferInitiated"
         (withGlobals (set_pendingAdminAddress newAdmin (globals w)) w))
| CoAccept :
    pendingAdminAddress (globals w) <> "" ->
    sender e = pendingAdminAddress (globals w) ->
    committed e w AcceptAdmin
      (withLog "TipJar:AdminTransferred"
         (withGlobals
            (set_pendingAdminAddress "" (set_adminAddress (sender e) (globals w)))
            w))
| CoRegister name bio category profileImage :
    isPaused (globals w) = 0 ->
    isRegistered (profileOf (sender e) w) <> 1 ->
    0 < strlen name <= MAX_NAME_LEN ->
    0 < strlen bio <= MAX_BIO_LEN ->
    0 < strlen category <= MAX_CATEGORY_LEN ->
    strlen profileImage <= MAX_IMAGE_LEN ->
    committed e w (RegisterCreator name bio category profileImage)
      (withLog "TipJar:CreatorRegistered"
         (withGlobals
            (set_totalCreators (totalCreators (globals w) + 1) (globals w))
            (withProfile (sender e)
               (mkProfile name bio category 0 0 1 profileImage "" 0 "") w)))
| CoUpdate name bio category profileImage :
    isPaused (globals w) = 0 ->
    isRegistered (profileOf (sender e) w) = 1 ->
    0 < strlen name <= MAX_NAME_LEN ->
    0 < strlen bio <= MAX_BIO_LEN ->
    0 < strlen category <= MAX_CATEGORY_LEN ->
    strlen profileImage <= MAX_IMAGE_LEN ->
    committed e w (UpdateProfile name bio category profileImage)
      (withLog "TipJar:ProfileUpdated"
         (withProfile (sender e)
            (set_profileImageUrl profileImage
               (set_creatorCategory category
                  (set_creatorBio bio
                     (set_creatorName name (profileOf (sender e) w))))) w))
| CoSetSplit collaboratorAddr collaboratorName splitPercent :
    isPaused (globals w) = 0 ->
    isRegistered (profileOf (sender e) w) = 1 ->
    1 <= splitPercent <= 50 ->
    strlen collaboratorAddr = ADDR_LEN ->
    0 < strlen collaboratorName <= MAX_COLLAB_NAME_LEN ->
    committed e w (SetRevenueSplit collaboratorAddr collaboratorName splitPercent)
      (withLog "TipJar:RevenueSplitSet"
         (withProfile (sender e)
            (set_revSplitPercent splitPercent
               (set_revSplitName collaboratorName
                  (set_revSplitAddress collaboratorAddr
                     (profileOf (sender e) w)))) w))
| CoRemoveSplit :
    isPaused (globals w) = 0 ->
    isRegistered (profileOf (sender e) w) = 1 ->
    committed e w RemoveRevenueSplit
      (withLog "TipJar:RevenueSplitRemoved"
         (withProfile (sender e)
            (set_revSplitPercent 0
               (set_revSplitName ""
                  (set_revSplitAddress "" (profileOf (sender e) w)))) w))
| CoTip a message p :
    isPaused (globals w) = 0 ->
    isRegistered (profileOf a w) = 1 ->
    minTipAmount (globals w) <= amount p ->
    sender e <> a ->
    feeOf w p <= amount p ->
    (0 < revSplitPercent (profileOf a w) -> shareOf w a p <= afterFeeOf w p) ->
    committed e w (SendTip a message p)
      (mkWorld
         (set_totalTipCount (totalTipCount (globals w) + 1)
            (set_totalTipsProcessed (totalTipsProcessed (globals w) + amount p)
               (set_totalFeesAccumulated
                  (totalFeesAccumulated (globals w) + feeOf w p) (globals w))))
         (<[a := set_tipCount (tipCount (profileOf a w) + 1)
                   (set_tipsReceived (tipsReceived (profileOf a w) + amount p)
                      (profileOf a w))]> (locals w))
         (itxns w ++ [ItxnPayment a (paidOf w a p) 0])
         (logs w ++ ["TipJar:TipSent"]))
| CoMint supporter badgeTier creatorAddr :
    isPaused (globals w) = 0 ->
    sender e = adminAddress (globals w) \/ sender e = creatorAddr ->
    1 <= badgeTier <= 4 ->
    isRegistered (profileOf creatorAddr w) = 1 ->
    committed e w (MintBadge supporter badgeTier creatorAddr)
      (withLog "TipJar:BadgeMinted"
         (withGlobals
            (set_totalBadgesMinted (totalBadgesMinted (globals w) + 1) (globals w))
            (withItxn
               (ItxnAssetConfig 1 0 false "TJBADGE"
                  ("TipJar " ++ tierNameOf badgeTier ++ " Badge")%string 0) w)))
| CoSetMin newMin :
    sender e = adminAddress (globals w) ->
    10000 <= newMin ->
    committed e w (SetMinTipAmount newMin)
      (withLog "TipJar:MinTipUpdated"
         (withGlobals (set_minTipAmount newMin (globals w)) w))
| CoSetFee newFeeBps :
    sender e = adminAddress (globals w) ->
    newFeeBps <= 1000 ->
    committed e w (SetPlatformFee newFeeBps)
      (withLog "TipJar:FeeUpdated"
         (withGlobals (set_platformFeeBps newFeeBps (globals w)) w))
| CoWithdraw amt :
    sender e = adminAddress (globals w) ->
    0 < amt ->
    amt <= totalFeesAccumulated (globals w) ->
    amt <= currentApplicationBalance e ->
    MIN_CONTRACT_BALANCE <= currentApplicationBalance e - amt ->
    committed e w (WithdrawPlatformFees amt)
      (withLog "TipJar:FeesWithdrawn"
         (withGlobals
            (set_totalFeesAccumulated (totalFeesAccumulated (globals w) - amt)
               (globals w))
            (withItxn (ItxnPayment (sender e) amt 0) w)))
| CoThresholds bronze silver gold diamond :
    sender e = adminAddress (globals w) ->
    bronze < silver -> silver < gold -> gold < diamond ->
    committed e w (SetBadgeThresholds bronze silver gold diamond)
      (withLog "TipJar:ThresholdsUpdated"
         (withGlobals
            (set_diamondThreshold diamond
               (set_goldThreshold gold
                  (set_silverThreshold silver
                     (set_bronzeThreshold bronze (globals w))))) w)).

(** The microALGO paid out by a list of inner transactions, and the
    number of assets it creates. *)
Definition paymentOf (t : InnerTxn) : N :=
  match t with
  | ItxnPayment _ amt _ => amt
  | ItxnAssetConfig _ _ _ _ _ _ => 0
  end.

Definition sumPayments (ts : list InnerTxn) : N :=
  fold_right (fun t acc => paymentOf t + acc) 0 ts.

Definition isAssetConfig (t : InnerTxn) : bool :=
  match t with
  | ItxnPayment _ _ _ => false
  | ItxnAssetConfig _ _ _ _ _ _ => true
  end.

Definition countBadges (ts : list InnerTxn) : N :=
  fold_right (fun t acc => (if isAssetConfig t then 1 else 0) + acc) 0 ts.

(** The admin-controlled settings are within the bounds their setters
    check. *)
Definition settingsOk (g : GlobalState) : Prop :=
  platformFeeBps g <= 1000
  /\ 10000 <= minTipAmount g
  /\ bronzeThreshold g < silverThreshold g
  /\ silverThreshold g < goldThreshold g
  /\ goldThreshold g < diamondThreshold g
  /\ isPaused g <= 1.

(** A profile has no revenue split, or a complete and valid one. *)
Definition splitOk (p : Profile) : Prop :=
  (revSplitAddress p = "" /\ revSplitName p = "" /\ revSplitPercent p = 0)
  \/ (strlen (revSplitAddress p) = ADDR_LEN
      /\ 0 < strlen (revSplitName p) <= MAX_COLLAB_NAME_LEN
      /\ 1 <= revSplitPercent p <= 50).

(** The texts of a profile are within the limits of registration. *)
Definition textsOk (p : Profile) : Prop :=
  0 < strlen (creatorName p) <= MAX_NAME_LEN
  /\ 0 < strlen (creatorBio p) <= MAX_BIO_LEN
  /\ 0 < strlen (creatorCategory p) <= MAX_CATEGORY_LEN
  /\ strlen (profileImageUrl p) <= MAX_IMAGE_LEN.

(** Every account has a registered, well-formed profile or none at all. *)
Definition profilesOk (w : World) : Prop :=
  forall a,
    profileOf a w = noProfile
    \/ (isRegistered (profileOf a w) = 1
        /\ textsOk (profileOf a w) /\ splitOk (profileOf a w)).

(** The methods of the read-only sections of the contract. *)
Definition readOnly (c : Call) : bool :=
  match c with
  | GetRevenueSplitPercent _ | VerifyTipRecord _ | GetBronzeThreshold
  | GetTotalBadgesMinted | GetCreatorName _ | GetCreatorBio _
  | GetCreatorCategory _ | GetTipsReceived _ | GetTipCount _
  | GetPlatformStats | GetTotalCreators | GetTotalTipCount
  | CheckRegistration _ | GetMinTipAmount | GetPlatformFee | GetIsPaused
  | GetTotalFeesAccumulated | GetAdminAddress => true
  | _ => false
  end.

(** ** The front end's badge tiers

    [BADGE_TIERS] and [getBadgeTier] of the application script.  The
    amount is a total of tips in microALGO, a non-negative integer, and
    is an [N] here. *)

Module FrontEnd.

Record BadgeTier := mkBadgeTier {
  level : N;
  name : string;
  icon : string;
  threshold : N;
  color : string;
  label : string
}.

Module BADGE_TIERS.
Definition bronze : BadgeTier :=
  mkBadgeTier 1 "Bronze" "🥉" 5000000 "#cd7f32" "Tipped 5+ ALGO".
Definition silver : BadgeTier :=
  mkBadgeTier 2 "Silver" "🥈" 25000000 "#c0c0c0" "Tipped 25+ ALGO".
Definition gold : BadgeTier :=
  mkBadgeTier 3 "Gold" "🥇" 100000000 "#ffd700" "Tipped 100+ ALGO".
Definition diamond : BadgeTier :=
  mkBadgeTier 4 "Diamond" "💎" 500000000 "#b9f2ff" "Tipped 500+ ALGO".
End BADGE_TIERS.

Definition getBadgeTier (totalTippedMicro : N) : option BadgeTier :=
  if threshold BADGE_TIERS.diamond <=? totalTippedMicro
  then Some BADGE_TIERS.diamond
  else if threshold BADGE_TIERS.gold <=? totalTippedMicro
  then Some BADGE_TIERS.gold
  else if threshold BADGE_TIERS.silver <=? totalTippedMicro
  then Some BADGE_TIERS.silver
  else if threshold BADGE_TIERS.bronze <=? totalTippedMicro
  then Some BADGE_TIERS.bronze
  else None.

End FrontEnd.

(** The contract's threshold for a tier number. *)
Definition thresholdOfTier (g : GlobalState) (badgeTier : N) : N :=
  if badgeTier =? 1 then bronzeThreshold g
  else if badgeTier =? 2 then silverThreshold g
  else if badgeTier =? 3 then goldThreshold g
  else diamondThreshold g.

(** * Reasoning about method bodies *)

Lemma profileIn_insert_eq (l : gmap string Profile) a p :
  profileIn (<[a := p]> l) a = p.
Proof. unfold profileIn. by rewrite lookup_insert_eq. Qed.

Lemma profileIn_insert_ne (l : gmap string Profile) a b p :
  a <> b -> profileIn (<[a := p]> l) b = profileIn l b.
Proof. intros Hne. unfold profileIn. by rewrite lookup_insert_ne. Qed.

Lemma locals_insert_twice (l : gmap string Profile) a p q :
  <[a := p]> (<[a := q]> l) = <[a := p]> l.
Proof. apply insert_insert_eq. Qed.

Lemma add64_Some a b n : add64 a b = Some n -> n = a + b.
Proof. unfold add64. destruct (a + b <=? MAX_UINT64); congruence. Qed.

Lemma sub64_Some a b n : sub64 a b = Some n -> n = a - b /\ b <= a.
Proof.
  unfold sub64. destruct (b <=? a) eqn:Hle; [|discriminate].
  apply N.leb_le in Hle. intros [= <-]. done.
Qed.

Lemma mul64_Some a b n : mul64 a b = Some n -> n = a * b.
Proof. unfold mul64. destruct (a * b <=? MAX_UINT64); congruence. Qed.

Lemma div64_Some a b n : div64 a b = Some n -> n = a / b /\ b <> 0.
Proof.
  unfold div64. destruct (b =? 0) eqn:Hz; [discriminate|].
  apply N.eqb_neq in Hz. intros [= <-]. done.
Qed.

(** One step of a body: the first primitive of a sequence, run on a
    state. *)
Section Steps.
Context {A B : Type} (k : A -> M B) (w : World).

Lemma bind_bind {C} (c : M C) (k1 : C -> M A) :
  bind (bind c k1) k w = bind c (fun x => bind (k1 x) k) w.
Proof. unfold bind. destruct (c w) as [[x|msg] w1]; done. Qed.

Lemma bind_ret (a : A) : bind (ret a) k w = k a w.
Proof. done. Qed.

Lemma bind_gread (key : GlobalState -> A) :
  bind (gread key) k w = k (key (globals w)) w.
Proof. done. Qed.

Lemma bind_lread a (key : Profile -> A) :
  bind (lread a key) k w = k (key (profileIn (locals w) a)) w.
Proof. done. Qed.
End Steps.

Section UnitSteps.
Context {B : Type} (k : unit -> M B) (w : World).

Lemma bind_assert cond msg :
  bind (assert cond msg) k w = if cond then k tt w else (Abort msg, w).
Proof. unfold bind, assert. by destruct cond. Qed.

Lemma bind_gwrite upd :
  bind (gwrite upd) k w =
  k tt (mkWorld (upd (globals w)) (locals w) (itxns w) (logs w)).
Proof. done. Qed.

Lemma bind_lwrite a upd :
  bind (lwrite a upd) k w =
  k tt (mkWorld (globals w) (<[a := upd (profileIn (locals w) a)]> (locals w))
            (itxns w) (logs w)).
Proof. done. Qed.

Lemma bind_submit t :
  bind (submit t) k w =
  k tt (mkWorld (globals w) (locals w) (itxns w ++ [t]) (logs w)).
Proof. done. Qed.

Lemma bind_log s :
  bind (log s) k w =
  k tt (mkWorld (globals w) (locals w) (itxns w) (logs w ++ [s])).
Proof. done. Qed.
End UnitSteps.

Lemma bind_checked {B} (k : N -> M B) (w : World) r :
  bind (checked r) k w =
  match r with Some n => k n w | None => (Abort "arithmetic failure", w) end.
Proof. unfold bind, checked. by destruct r. Qed.

Ltac unfold_methods :=
  cbv beta zeta delta
    [pauseContract unpauseContract transferAdmin acceptAdmin registerCreator
     updateProfile setRevenueSplit removeRevenueSplit getRevenueSplitPercent
     sendTip mintBadge verifyTipRecord getBronzeThreshold getTotalBadgesMinted
     getCreatorName getCreatorBio getCreatorCategory getTipsReceived
     getTipCount getPlatformStats getTotalCreators getTotalTipCount
     setMinTipAmount setPlatformFee withdrawPlatformFees setBadgeThresholds
     checkRegistration getMinTipAmount getPlatformFee getIsPaused
     getTotalFeesAccumulated getAdminAddress
     assertNotPaused assertAdmin assertRegistered assertIsCreator returning].

(** Symbolic execution of a method body in the goal: one primitive at a
    time, splitting every test the body makes, in program order. *)
Ltac exec_tidy :=
  cbv beta iota; cbn [globals locals itxns logs fst snd];
  rewrite ?profileIn_insert_eq, ?locals_insert_twice.

Ltac exec_step :=
  first
    [ rewrite bind_bind | rewrite bind_assert | rewrite bind_checked
    | rewrite bind_gread | rewrite bind_gwrite | rewrite bind_lread
    | rewrite bind_lwrite | rewrite bind_submit | rewrite bind_log
    | rewrite bind_ret ].

Ltac exec_split :=
  match goal with
  | |- context [if ?b then _ else _] => destruct b eqn:?
  | |- context [match ?o with Some _ => _ | None => _ end] => destruct o eqn:?
  end.

Ltac exec :=
  unfold profileOf in *; unfold_methods;
  repeat (first [exec_step | exec_split]; exec_tidy);
  cbv beta iota delta [ret]; cbn [fst snd].

(** The checked operations that succeeded, as equations. *)
Ltac arith_facts :=
  repeat match goal with
  | H : add64 _ _ = Some _ |- _ => apply add64_Some in H
  | H : sub64 _ _ = Some _ |- _ => apply sub64_Some in H; destruct H as [H ?]
  | H : mul64 _ _ = Some _ |- _ => apply mul64_Some in H
  | H : div64 _ _ = Some _ |- _ => apply div64_Some in H; destruct H as [H ?]
  end.

(** The checked operations that failed. *)
Lemma add64_None a b : add64 a b = None -> MAX_UINT64 < a + b.
Proof.
  unfold add64. destruct (a + b <=? MAX_UINT64) eqn:Hle; [discriminate|].
  by apply N.leb_gt in Hle.
Qed.

Lemma sub64_None a b : sub64 a b = None -> a < b.
Proof.
  unfold sub64. destruct (b <=? a) eqn:Hle; [discriminate|].
  by apply N.leb_gt in Hle.
Qed.

Lemma mul64_None a b : mul64 a b = None -> MAX_UINT64 < a * b.
Proof.
  unfold mul64. destruct (a * b <=? MAX_UINT64) eqn:Hle; [discriminate|].
  by apply N.leb_gt in Hle.
Qed.

Lemma div64_None a b : div64 a b = None -> b = 0.
Proof.
  unfold div64. destruct (b =? 0) eqn:Hz; [|discriminate].
  by apply N.eqb_eq in Hz.
Qed.

Ltac arith_nones :=
  repeat match goal with
  | H : add64 _ _ = None |- _ => apply add64_None in H
  | H : sub64 _ _ = None |- _ => apply sub64_None in H
  | H : mul64 _ _ = None |- _ => apply mul64_None in H
  | H : div64 _ _ = None |- _ => apply div64_None in H
  end.

(** The tests that were taken, as propositions. *)
Ltac bool_facts :=
  repeat match goal with
  | H : negb _ = true |- _ => apply negb_true_iff in H
  | H : negb _ = false |- _ => apply negb_false_iff in H
  | H : (_ && _)%bool = true |- _ => apply andb_true_iff in H; destruct H
  | H : (_ || _)%bool = false |- _ => apply orb_false_iff in H; destruct H
  | H : (_ =? _)%string = true |- _ => apply String.eqb_eq in H
  | H : (_ =? _)%string = false |- _ => apply String.eqb_neq in H
  | H : (_ =? _) = true |- _ => apply N.eqb_eq in H
  | H : (_ =? _) = false |- _ => apply N.eqb_neq in H
  | H : (_ <=? _) = true |- _ => apply N.leb_le in H
  | H : (_ <=? _) = false |- _ => apply N.leb_gt in H
  | H : (_ <? _) = true |- _ => apply N.ltb_lt in H
  | H : (_ <? _) = false |- _ => apply N.ltb_ge in H
  end.

(** ** Calls, runs and the creation state *)

Lemma returning_run {A} (wrap : A -> Ret) (m : M A) w :
  returning wrap m w =
  match m w with
  | (Done x, w') => (Done (wrap x), w')
  | (Abort msg, w') => (Abort msg, w')
  end.
Proof. unfold returning, bind, ret. by destruct (m w) as [[x|msg] w']. Qed.

Lemma call_of_body_Abort e c w msg w1 :
  body e c w = (Abort msg, w1) -> call e c w = (Abort msg, w).
Proof. unfold call. by intros ->. Qed.

(** A rejected call commits nothing. *)
Lemma step_rejected e c w : rejects (call e c w) -> step w (e, c) = w.
Proof.
  unfold rejects, step, call; cbn [fst snd].
  destruct (body e c w) as [[r|msg] w1]; [|done].
  by intros [msg [=]].
Qed.

Lemma created_state e :
  created e =
  mkWorld (mkGlobalState 0 0 0 100000 100 (sender e) "" 0 0 0
             5000000 25000000 100000000 500000000)
          ∅ [] ["TipJar:Created"].
Proof. reflexivity. Qed.

Lemma run_snoc e0 cs ec : run e0 (cs ++ [ec]) = step (run e0 cs) ec.
Proof. unfold run. by rewrite fold_left_app. Qed.

(** What holds of the creation state and is kept by every call holds
    after every run. *)
Lemma run_ind (P : World -> Prop) e0 :
  P (created e0) ->
  (forall w e c, P w -> P (step w (e, c))) ->
  forall cs, P (run e0 cs).
Proof.
  intros Hinit Hstep cs. induction cs as [|[e c] cs IH] using rev_ind; [done|].
  rewrite run_snoc. by apply Hstep.
Qed.

(** ** The effect of one call *)

Lemma step_effect e c w : effect e c w (step w (e, c)).
Proof.
  unfold step, call, body; cbn [fst snd].
  destruct c; exec.
  all: try (by apply EffNone).
  all: bool_facts; arith_facts; subst.
  all: try (by eapply EffTransfer).
  all: try (by eapply EffAccept).
  all: try (by eapply EffMint).
  all: try (by eapply EffWithdraw).
  all: try (by eapply EffEdit).
  all: try (by eapply EffTip).
  by eapply EffRegister.
Qed.

(** ** Methods that returned *)

Lemma registerCreator_Done e n b cat i w r w' :
  registerCreator e n b cat i w = (Done r, w') ->
  isPaused (globals w) = 0
  /\ isRegistered (profileOf (sender e) w) <> 1
  /\ w' = mkWorld
            (set_totalCreators (totalCreators (globals w) + 1) (globals w))
            (<[sender e := mkProfile n b cat 0 0 1 i "" 0 ""]> (locals w))
            (itxns w) (logs w ++ ["TipJar:CreatorRegistered"]).
Proof.
  exec; intros [= <- <-]. bool_facts; arith_facts; subst. done.
Qed.

Lemma sendTip_Done e a m p w r w' :
  sendTip e a m p w = (Done r, w') ->
  let fee := amount p * platformFeeBps (globals w) / 10000 in
  let afterFee := amount p - fee in
  let pct := revSplitPercent (profileOf a w) in
  let share := afterFee * pct / 100 in
  let paid := if 0 <? pct then afterFee - share else afterFee in
  isPaused (globals w) = 0
  /\ isRegistered (profileOf a w) = 1
  /\ minTipAmount (globals w) <= amount p
  /\ sender e <> a
  /\ fee <= amount p
  /\ (0 < pct -> share <= afterFee)
  /\ w' = mkWorld
            (set_totalTipCount (totalTipCount (globals w) + 1)
               (set_totalTipsProcessed
                  (totalTipsProcessed (globals w) + amount p)
                  (set_totalFeesAccumulated
                     (totalFeesAccumulated (globals w) + fee) (globals w))))
            (<[a := set_tipCount (tipCount (profileOf a w) + 1)
                      (set_tipsReceived
                         (tipsReceived (profileOf a w) + amount p)
                         (profileOf a w))]> (locals w))
            (itxns w ++ [ItxnPayment a paid 0])
            (logs w ++ ["TipJar:TipSent"]).
Proof.
  cbv zeta. exec; intros [= <- <-]; bool_facts; arith_facts; subst.
  all: repeat split; try done; lia.
Qed.

Lemma transferAdmin_Done e newAdmin w r w' :
  transferAdmin e newAdmin w = (Done r, w') ->
  sender e = adminAddress (globals w)
  /\ newAdmin <> sender e
  /\ w' = mkWorld (set_pendingAdminAddress newAdmin (globals w)) (locals w)
            (itxns w) (logs w ++ ["TipJar:AdminTransferInitiated"]).
Proof. exec; intros [= <- <-]. bool_facts. done. Qed.

Lemma acceptAdmin_Done e w r w' :
  acceptAdmin e w = (Done r, w') ->
  pendingAdminAddress (globals w) <> ""
  /\ sender e = pendingAdminAddress (globals w)
  /\ w' = mkWorld
            (set_pendingAdminAddress "" (set_adminAddress (sender e) (globals w)))
            (locals w) (itxns w) (logs w ++ ["TipJar:AdminTransferred"]).
Proof. exec; intros [= <- <-]. bool_facts. done. Qed.

(** ** Sums over the profile store *)

Lemma sumOver_insert f (l : gmap string Profile) a p :
  f noProfile = 0 ->
  sumOver f (<[a := p]> l) + f (profileIn l a) = sumOver f l + f p.
Proof.
  intros Hzero. unfold sumOver, profileIn.
  assert (Hcomm : forall (m : gmap string Profile) (j1 j2 : string)
                         (z1 z2 : Profile) (y : N),
             j1 <> j2 -> m !! j1 = Some z1 -> m !! j2 = Some z2 ->
             y + f z2 + f z1 = y + f z1 + f z2) by (intros; lia).
  destruct (l !! a) as [q|] eqn:Hq; simpl.
  - rewrite (map_fold_delete_L _ _ a q l); [|by apply Hcomm|done].
    rewrite <- (insert_delete_eq l).
    rewrite map_fold_insert_L; [lia|by apply Hcomm|by rewrite lookup_delete_eq].
  - rewrite map_fold_insert_L; [lia|by apply Hcomm|done].
Qed.

Lemma credited_unregistered p :
  isRegistered p <> 1 ->
  tipsCredited p = 0 /\ countCredited p = 0 /\ registeredOne p = 0.
Proof.
  intros Hp. unfold tipsCredited, countCredited, registeredOne.
  by destruct (N.eqb_spec (isRegistered p) 1).
Qed.

Lemma credited_registered p :
  isRegistered p = 1 ->
  tipsCredited p = tipsReceived p /\ countCredited p = tipCount p
  /\ registeredOne p = 1.
Proof.
  intros Hp. unfold tipsCredited, countCredited, registeredOne. by rewrite Hp.
Qed.

Lemma counters_frame (l : gmap string Profile) a b p g i lg :
  b <> a ->
  counters b (mkWorld g (<[a := p]> l) i lg) =
  (tipsReceived (profileIn l b), tipCount (profileIn l b)).
Proof.
  intros Hne. unfold counters, profileOf; cbn [locals].
  by rewrite profileIn_insert_ne.
Qed.

(** [s.length] outside ASCII: an accented letter is two bytes and one
    unit, a gem is four bytes and a surrogate pair. *)
Example strlen_counts_units :
  strlen "Zoë" = 3 /\ strlen "💎" = 2 /\ strlen "" = 0.
Proof. vm_compute. repeat split. Qed.

(** The address texts of the examples name the accounts they should. *)
Example addressC_names_creatorC : addressKey addressC = Some creatorC.
Proof. vm_compute. reflexivity. Qed.

Example addressN_names_newcomerN : addressKey addressN = Some newcomerN.
Proof. vm_compute. reflexivity. Qed.

Example zero_address_text :
  addressKey "AAAAAAAAAAAAAAAAAAAAAAAAAAAAAAAAAAAAAAAAAAAAAAAAAAAAY5HFKQ"
  = Some zeroAddress.
Proof. vm_compute. reflexivity. Qed.

(** * The guards of [sendTip] *)

(** C1. Each guard of [sendTip] rejects the call: a payment below
    [minTipAmount], a target that is not registered, a payment whose
    receiver is not the contract's account, a non-zero close-remainder-to,
    a non-zero rekey-to, or a caller who is the target.  The body fails
    before it has written anything: the state at the failure is the state
    before the call, so no creator counter, no platform counter, not
    [totalFeesAccumulated] and not the list of inner transactions has
    changed.  The committed call leaves the same state. *)
Theorem sendTip_guard_rejects (e : Env) (creator : Account) (message : string)
    (tipPayment : PaymentTxn) (w : World) :
  amount tipPayment < minTipAmount (globals w)
  \/ isRegistered (profileOf creator w) <> 1
  \/ receiver tipPayment <> currentApplicationAddress e
  \/ closeRemainderTo tipPayment <> zeroAddress
  \/ rekeyTo tipPayment <> zeroAddress
  \/ sender e = creator ->
  exists msg,
    sendTip e creator message tipPayment w = (Abort msg, w)
    /\ call e (SendTip creator message tipPayment) w = (Abort msg, w).
Proof.
  intros Hguard.
  assert (exists msg, sendTip e creator message tipPayment w = (Abort msg, w))
    as [msg Hmsg].
  { unfold profileOf in *. unfold_methods.
    do 7 (repeat (exec_step; exec_tidy); exec_split; exec_tidy; [|by eexists]).
    bool_facts. exfalso.
    destruct Hguard as [?|[?|[?|[?|[?|?]]]]]; try done. lia. }
  exists msg. split; [done|].
  apply call_of_body_Abort with (w1 := w). unfold body.
  by rewrite returning_run, Hmsg.
Qed.

(** A tip of 5 units to a registered creator is below the minimum of
    100,000 and is rejected; nothing changes. *)
Lemma sendTip_guard_rejects_witness :
  amount (tipOf 5) < minTipAmount (globals worldC)
  /\ exists msg,
       sendTip (envOf supporterS) creatorC "thanks" (tipOf 5) worldC
       = (Abort msg, worldC)
       /\ call (envOf supporterS) (SendTip creatorC "thanks" (tipOf 5)) worldC
          = (Abort msg, worldC).
Proof.
  assert (Hlow : amount (tipOf 5) < minTipAmount (globals worldC))
    by (vm_compute; reflexivity).
  split; [exact Hlow|].
  apply sendTip_guard_rejects. left. exact Hlow.
Defined.

(** * Conservation of tips *)

Lemma conserved_step e c w : conserved w -> conserved (step w (e, c)).
Proof.
  unfold conserved, sumTipsReceived, sumTipCount. intros [Htips Hcount].
  destruct (step_effect e c w)
    as [Hl _ (_ & Ht & Hc) _
       |n b cat i _ Hreg Hl _ Ht Hc _ _
       |a m p paid _ Hreg Hl _ Ht Hc _ _
       |p' Hreg Hl Hreg' Htr Htc _ (_ & Ht & Hc) _
       |n _ _ _ _ _ Hl _ (_ & Ht & Hc)
       |_ _ _ _ _ Hl _ (_ & Ht & Hc)
       |amt _ _ _ _ Hl (_ & Ht & Hc) _
       |s t a _ _ Hl (_ & Ht & Hc) _];
    rewrite Hl, Ht, Hc; try done.
  - pose proof (sumOver_insert tipsCredited (locals w) (sender e)
                  (mkProfile n b cat 0 0 1 i "" 0 "") eq_refl) as H1.
    pose proof (sumOver_insert countCredited (locals w) (sender e)
                  (mkProfile n b cat 0 0 1 i "" 0 "") eq_refl) as H2.
    destruct (credited_unregistered _ Hreg) as (E1 & E2 & _).
    unfold profileOf in *. rewrite E1 in H1. rewrite E2 in H2.
    cbn in H1, H2. lia.
  - set (q := set_tipCount _ _).
    pose proof (sumOver_insert tipsCredited (locals w) a q eq_refl) as H1.
    pose proof (sumOver_insert countCredited (locals w) a q eq_refl) as H2.
    destruct (credited_registered _ Hreg) as (E1 & E2 & _).
    assert (Hq : isRegistered q = 1) by exact Hreg.
    destruct (credited_registered _ Hq) as (F1 & F2 & _).
    unfold profileOf in *. rewrite E1, F1 in H1. rewrite E2, F2 in H2.
    cbn in H1, H2. lia.
  - pose proof (sumOver_insert tipsCredited (locals w) (sender e) p' eq_refl) as H1.
    pose proof (sumOver_insert countCredited (locals w) (sender e) p' eq_refl) as H2.
    destruct (credited_registered _ Hreg) as (E1 & E2 & _).
    destruct (credited_registered _ Hreg') as (F1 & F2 & _).
    unfold profileOf in *. rewrite E1, F1 in H1. rewrite E2, F2 in H2. lia.
Qed.

Lemma conserved_run e0 cs : conserved (run e0 cs).
Proof.
  apply run_ind; [by rewrite created_state|]. intros; by apply conserved_step.
Qed.

(** C2. After creation and any sequence of calls, the sum of
    [tipsReceived] over the registered profiles is [totalTipsProcessed]
    and the sum of [tipCount] over them is [totalTipCount].  A further
    call that is rejected changes nothing; a successful [registerCreator]
    sets both counters of the caller's profile to zero and leaves the
    totals; a successful [sendTip] adds the gross amount and one tip to
    the target's counters and to the totals; every other method leaves
    every profile's counters and both totals as they were. *)
Theorem tips_conserved (e0 : Env) (cs : list (Env * Call)) (e : Env) (c : Call) :
  let w := run e0 cs in
  let w' := step w (e, c) in
  (sumTipsReceived w = totalTipsProcessed (globals w)
   /\ sumTipCount w = totalTipCount (globals w))
  /\ (rejects (call e c w) -> w' = w)
  /\ (succeeds (call e c w) ->
      match c with
      | RegisterCreator _ _ _ _ =>
          counters (sender e) w' = (0, 0)
          /\ totals w' = totals w
          /\ forall b, b <> sender e -> counters b w' = counters b w
      | SendTip a _ p =>
          counters a w' =
            (tipsReceived (profileOf a w) + amount p, tipCount (profileOf a w) + 1)
          /\ totals w' =
               (totalTipsProcessed (globals w) + amount p,
                totalTipCount (globals w) + 1)
          /\ forall b, b <> a -> counters b w' = counters b w
      | _ =>
          totals w' = totals w /\ forall b, counters b w' = counters b w
      end).
Proof.
  intros w w'. split; [apply conserved_run|]. split; [apply step_rejected|].
  intros [r Hr]. subst w'. generalize dependent w. clear e0 cs. intros w Hr.
  assert (Hother :
    (forall n b cat i, c <> RegisterCreator n b cat i) ->
    (forall a m p, c <> SendTip a m p) ->
    totals (step w (e, c)) = totals w
    /\ forall b, counters b (step w (e, c)) = counters b w).
  { intros Hnr Hnt. unfold totals, counters, profileOf.
    destruct (step_effect e c w)
      as [Hl _ (_ & Ht & Hc) _
         |n b cat i Hc' _ _ _ _ _ _ _
         |a m p paid Hc' _ _ _ _ _ _ _
         |p' Hreg Hl Hreg' Htr Htc _ (_ & Ht & Hc) _
         |n _ _ _ _ _ Hl _ (_ & Ht & Hc)
         |_ _ _ _ _ Hl _ (_ & Ht & Hc)
         |amt _ _ _ _ Hl (_ & Ht & Hc) _
         |s t a _ _ Hl (_ & Ht & Hc) _];
      try (by rewrite Hl, Ht, Hc);
      try (by destruct (Hnr _ _ _ _ Hc')); try (by destruct (Hnt _ _ _ Hc')).
    rewrite Hl, Ht, Hc. split; [done|]. intros b.
    destruct (decide (b = sender e)) as [->|Hne].
    - rewrite profileIn_insert_eq. unfold profileOf in *. congruence.
    - by rewrite profileIn_insert_ne. }
  destruct c; try (apply Hother; congruence); clear Hother.
  - (* registerCreator *)
    unfold step, call, body in *; cbn [fst snd] in *.
    rewrite returning_run in *.
    destruct (registerCreator e name bio category profileImage w)
      as [[s|msg] w1] eqn:Hreg; [|done].
    apply registerCreator_Done in Hreg as (_ & _ & ->). cbn [snd].
    split; [|split]; [| done |].
    + unfold counters, profileOf; cbn [locals]. by rewrite profileIn_insert_eq.
    + intros b Hb. by rewrite counters_frame.
  - (* sendTip *)
    unfold step, call, body in *; cbn [fst snd] in *.
    rewrite returning_run in *.
    destruct (sendTip e creator message tipPayment w)
      as [[s|msg] w1] eqn:Htip; [|done].
    apply sendTip_Done in Htip as (_ & _ & _ & _ & _ & _ & ->). cbn [snd].
    split; [|split]; [| done |].
    + unfold counters, profileOf; cbn [locals]. by rewrite profileIn_insert_eq.
    + intros b Hb. by rewrite counters_frame.
Qed.

(** After [creatorC] registered, a tip of 2,000,000 succeeds; the sum
    over the profiles and the platform total are both 2,000,000 and the
    creator's counters are (2,000,000, 1). *)
Lemma tips_conserved_witness :
  let w := run (envOf deployer) [registerC] in
  let tip := SendTip creatorC "thanks" (tipOf 2000000) in
  succeeds (call (envOf supporterS) tip w)
  /\ sumTipsReceived (run (envOf deployer) [registerC; tipC]) = 2000000
  /\ sumTipCount (run (envOf deployer) [registerC; tipC]) = 1
  /\ counters creatorC (step w (envOf supporterS, tip)) = (2000000, 1)
  /\ totals (step w (envOf supporterS, tip)) = (2000000, 1).
Proof.
  intros w tip.
  assert (Hok : succeeds (call (envOf supporterS) tip w))
    by (exists (RetString "Tip of 2000000 microALGO sent to creator");
        vm_compute; reflexivity).
  destruct (tips_conserved (envOf deployer) [registerC; tipC]
              (envOf supporterS) GetPlatformStats) as ((Hsum & Hcount) & _).
  destruct (tips_conserved (envOf deployer) [registerC]
              (envOf supporterS) tip) as (_ & _ & Hstep).
  destruct (Hstep Hok) as (Hcounters & Htotals & _).
  fold w in Hcounters, Htotals.
  split; [exact Hok|]. split; [|split; [|split]].
  - rewrite Hsum. vm_compute. reflexivity.
  - rewrite Hcount. vm_compute. reflexivity.
  - rewrite Hcounters. vm_compute. reflexivity.
  - rewrite Htotals. vm_compute. reflexivity.
Defined.

(** * The fee and the revenue split *)

Lemma fee_bound amt bps :
  bps <= 1000 -> 10 * (amt * bps / 10000) <= amt.
Proof.
  intros Hbps.
  pose proof (N.Div0.mul_div_le (amt * bps) 10000) as Hdiv.
  pose proof (N.mul_le_mono_l bps 1000 amt Hbps) as Hmul.
  lia.
Qed.

Lemma share_bound afterFee pct :
  pct <= 50 -> 2 * (afterFee * pct / 100) <= afterFee.
Proof.
  intros Hpct.
  pose proof (N.Div0.mul_div_le (afterFee * pct) 100) as Hdiv.
  pose proof (N.mul_le_mono_l pct 50 afterFee Hpct) as Hmul.
  lia.
Qed.

(** C3. In a successful [sendTip] of [tipAmount] with
    [platformFeeBps <= 1000], the fee is
    [tipAmount * platformFeeBps / 10000] (floor division) and what is left
    is [tipAmount - fee]: the two add up to [tipAmount] exactly, the fee
    is at least 0 and at most a tenth of the amount, the fee is added to
    [totalFeesAccumulated], and without a revenue split the creator is
    paid exactly what is left after the fee.  The creator's
    [tipsReceived] grows by the gross amount and [tipCount] by one.  For
    2,000,000 units at 100 basis points the fee is 20,000 and 1,980,000
    is left. *)
Theorem fee_split (e : Env) (creator : Account) (message : string)
    (tipPayment : PaymentTxn) (w : World) (r : string) (w' : World) :
  platformFeeBps (globals w) <= 1000 ->
  sendTip e creator message tipPayment w = (Done r, w') ->
  let tipAmount := amount tipPayment in
  let fee := tipAmount * platformFeeBps (globals w) / 10000 in
  let afterFee := tipAmount - fee in
  fee + afterFee = tipAmount
  /\ 0 <= fee
  /\ 10 * fee <= tipAmount
  /\ totalFeesAccumulated (globals w') = totalFeesAccumulated (globals w) + fee
  /\ (revSplitPercent (profileOf creator w) = 0 ->
      itxns w' = (itxns w ++ [ItxnPayment creator afterFee 0])%list)
  /\ tipsReceived (profileOf creator w') =
       tipsReceived (profileOf creator w) + tipAmount
  /\ tipCount (profileOf creator w') = tipCount (profileOf creator w) + 1
  /\ (tipAmount = 2000000 -> platformFeeBps (globals w) = 100 ->
      fee = 20000 /\ afterFee = 1980000).
Proof.
  intros Hbps Hrun tipAmount fee afterFee.
  apply sendTip_Done in Hrun as (_ & _ & _ & _ & Hfee & _ & ->).
  fold tipAmount fee afterFee in Hfee |- *.
  unfold profileOf; cbn [globals locals itxns].
  rewrite profileIn_insert_eq.
  split; [lia|]. split; [lia|]. split; [by apply fee_bound|].
  split; [done|]. split; [by intros ->|]. split; [done|]. split; [done|].
  intros Hamount Hrate. subst afterFee fee. rewrite Hamount, Hrate. done.
Qed.

(** The tip of 2,000,000 units to [creatorC] at 100 basis points: 20,000
    go to the accumulated fees and 1,980,000 are paid to the creator. *)
Lemma fee_split_witness :
  platformFeeBps (globals worldC) <= 1000
  /\ sendTip (envOf supporterS) creatorC "thanks" (tipOf 2000000) worldC
     = (Done "Tip of 2000000 microALGO sent to creator", tippedWorld)
  /\ totalFeesAccumulated (globals tippedWorld) = 20000
  /\ itxns tippedWorld = [ItxnPayment creatorC 1980000 0]
  /\ tipsReceived (profileOf creatorC tippedWorld) = 2000000
  /\ tipCount (profileOf creatorC tippedWorld) = 1.
Proof.
  assert (Hrun :
    sendTip (envOf supporterS) creatorC "thanks" (tipOf 2000000) worldC
    = (Done "Tip of 2000000 microALGO sent to creator", tippedWorld))
    by (vm_compute; reflexivity).
  assert (Hbps : platformFeeBps (globals worldC) <= 1000)
    by (vm_compute; discriminate).
  destruct (fee_split _ _ _ _ _ _ _ Hbps Hrun)
    as (_ & _ & _ & Hfees & Hpaid & Hreceived & Hcount & Hscenario).
  destruct Hscenario as [Hfee Hafter]; [reflexivity..|].
  split; [exact Hbps|]. split; [exact Hrun|].
  split; [|split; [|split]].
  - rewrite Hfees, Hfee. reflexivity.
  - rewrite Hpaid by reflexivity. rewrite Hafter. reflexivity.
  - rewrite Hreceived. reflexivity.
  - rewrite Hcount. reflexivity.
Defined.

(** C4. In a successful [sendTip] to a creator whose [revSplitPercent]
    [pct] satisfies [0 < pct <= 50], the collaborator's share is
    [afterFee * pct / 100] (floor division) and the creator's share is
    [afterFee] minus it: the shares add up to [afterFee], the
    collaborator's share is at most half of [afterFee], and the creator's
    share is what the contract pays to the creator.  With 20%, a tip of
    1,000,000 and a fee of 1%, [afterFee] is 990,000 and the shares are
    198,000 and 792,000. *)
Theorem revenue_split (e : Env) (creator : Account) (message : string)
    (tipPayment : PaymentTxn) (w : World) (r : string) (w' : World) :
  let pct := revSplitPercent (profileOf creator w) in
  0 < pct <= 50 ->
  sendTip e creator message tipPayment w = (Done r, w') ->
  let tipAmount := amount tipPayment in
  let fee := tipAmount * platformFeeBps (globals w) / 10000 in
  let afterFee := tipAmount - fee in
  let collaboratorShare := afterFee * pct / 100 in
  let creatorShare := afterFee - collaboratorShare in
  collaboratorShare + creatorShare = afterFee
  /\ 2 * collaboratorShare <= afterFee
  /\ itxns w' = (itxns w ++ [ItxnPayment creator creatorShare 0])%list
  /\ (tipAmount = 1000000 -> platformFeeBps (globals w) = 100 -> pct = 20 ->
      afterFee = 990000 /\ collaboratorShare = 198000 /\ creatorShare = 792000).
Proof.
  intros pct [Hpos Hmax] Hrun tipAmount fee afterFee collaboratorShare creatorShare.
  apply sendTip_Done in Hrun as (_ & _ & _ & _ & _ & Hshare & ->).
  fold pct tipAmount fee afterFee collaboratorShare creatorShare in Hshare |- *.
  specialize (Hshare Hpos). cbn [itxns].
  apply N.ltb_lt in Hpos as Hactive. rewrite Hactive.
  split; [lia|]. split; [by apply share_bound|]. split; [done|].
  intros Hamount Hrate Hpct.
  subst creatorShare collaboratorShare afterFee fee.
  rewrite Hamount, Hrate, Hpct. done.
Qed.

(** With a 20% split set by [creatorC], a tip of 1,000,000 units pays
    792,000 to the creator. *)
Lemma revenue_split_witness :
  0 < revSplitPercent (profileOf creatorC splitWorld) <= 50
  /\ sendTip (envOf supporterS) creatorC "thanks" (tipOf 1000000) splitWorld
     = (Done "Tip of 1000000 microALGO sent to creator",
        step splitWorld tipAfterSplit)
  /\ itxns (step splitWorld tipAfterSplit) = [ItxnPayment creatorC 792000 0].
Proof.
  assert (Hrun :
    sendTip (envOf supporterS) creatorC "thanks" (tipOf 1000000) splitWorld
    = (Done "Tip of 1000000 microALGO sent to creator",
       step splitWorld tipAfterSplit))
    by (vm_compute; reflexivity).
  assert (Hpct : 0 < revSplitPercent (profileOf creatorC splitWorld) <= 50)
    by (vm_compute; split; [reflexivity|discriminate]).
  destruct (revenue_split _ _ _ _ _ _ _ Hpct Hrun) as (_ & _ & Hpaid & Hscenario).
  destruct Hscenario as (_ & _ & Hcreator); [reflexivity..|].
  split; [exact Hpct|]. split; [exact Hrun|].
  rewrite Hpaid, Hcreator. reflexivity.
Defined.

(** C5. In a successful [sendTip] to a creator with an active revenue
    split, the contract submits exactly one inner transaction: a payment
    of the creator's share to the creator.  The tip is that payment plus
    the fee plus the collaborator's share, so the collaborator's share
    stays in the contract's balance.  In any call of any method the
    contract submits at most one inner transaction, and when it is a
    payment it is either the payout of a [sendTip] to the tipped creator
    or a fee withdrawal to the admin who called, of at most
    [totalFeesAccumulated]: no payment to a collaborator exists. *)
Theorem collaborator_share_retained (e : Env) (creator : Account)
    (message : string) (tipPayment : PaymentTxn) (w : World) (r : string)
    (w' : World) :
  0 < revSplitPercent (profileOf creator w) ->
  sendTip e creator message tipPayment w = (Done r, w') ->
  let tipAmount := amount tipPayment in
  let fee := tipAmount * platformFeeBps (globals w) / 10000 in
  let afterFee := tipAmount - fee in
  let collaboratorShare :=
    afterFee * revSplitPercent (profileOf creator w) / 100 in
  let creatorShare := afterFee - collaboratorShare in
  itxns w' = (itxns w ++ [ItxnPayment creator creatorShare 0])%list
  /\ tipAmount = creatorShare + (fee + collaboratorShare)
  /\ forall e2 c2 w2,
       exists emitted,
         itxns (step w2 (e2, c2)) = (itxns w2 ++ emitted)%list
         /\ (length emitted <= 1)%nat
         /\ forall rcv paid fee2,
              In (ItxnPayment rcv paid fee2) emitted ->
              (exists m p, c2 = SendTip rcv m p)
              \/ (c2 = WithdrawPlatformFees paid
                  /\ rcv = sender e2
                  /\ sender e2 = adminAddress (globals w2)
                  /\ paid <= totalFeesAccumulated (globals w2)).
Proof.
  intros Hpos Hrun tipAmount fee afterFee collaboratorShare creatorShare.
  apply sendTip_Done in Hrun as (_ & _ & _ & _ & Hfee & Hshare & ->).
  fold tipAmount fee afterFee collaboratorShare creatorShare in Hfee, Hshare |- *.
  specialize (Hshare Hpos). cbn [itxns].
  apply N.ltb_lt in Hpos as Hactive. rewrite Hactive.
  split; [done|]. split; [lia|].
  intros e2 c2 w2.
  destruct (step_effect e2 c2 w2)
    as [_ Hi _ _
       |n b cat i _ _ _ _ _ _ Hi _
       |a m p paid Hc _ _ _ _ _ Hi _
       |p' _ _ _ _ _ Hi _ _
       |n _ _ _ _ _ _ Hi _
       |_ _ _ _ _ _ Hi _
       |amt Hc Hadmin Hamt Hi _ _ _
       |s t a _ Hi _ _ _];
    rewrite Hi.
  1,2,4,5,6: exists []; rewrite app_nil_r; split; [done|]; split; [simpl; lia|];
    by intros ? ? ? [].
  - eexists; split; [done|]. split; [simpl; lia|].
    intros rcv paid' fee2 [[= <- <- <-]|[]]. left. eauto.
  - eexists; split; [done|]. split; [simpl; lia|].
    intros rcv paid' fee2 [[= <- <- <-]|[]]. right. done.
  - eexists; split; [done|]. split; [simpl; lia|].
    intros rcv paid' fee2 [[=]|[]].
Qed.

(** With the 20% split, the tip of 1,000,000 units yields one payment,
    of 792,000 to [creatorC]; the other 208,000 stay with the contract. *)
Lemma collaborator_share_retained_witness :
  0 < revSplitPercent (profileOf creatorC splitWorld)
  /\ sendTip (envOf supporterS) creatorC "thanks" (tipOf 1000000) splitWorld
     = (Done "Tip of 1000000 microALGO sent to creator",
        step splitWorld tipAfterSplit)
  /\ itxns (step splitWorld tipAfterSplit) = [ItxnPayment creatorC 792000 0]
  /\ amount (tipOf 1000000) = 792000 + 208000.
Proof.
  assert (Hrun :
    sendTip (envOf supporterS) creatorC "thanks" (tipOf 1000000) splitWorld
    = (Done "Tip of 1000000 microALGO sent to creator",
       step splitWorld tipAfterSplit))
    by (vm_compute; reflexivity).
  assert (Hpct : 0 < revSplitPercent (profileOf creatorC splitWorld))
    by (vm_compute; reflexivity).
  destruct (collaborator_share_retained _ _ _ _ _ _ _ Hpct Hrun)
    as (Hpaid & Hsum & _).
  split; [exact Hpct|]. split; [exact Hrun|]. split.
  - rewrite Hpaid. vm_compute. reflexivity.
  - rewrite Hsum. vm_compute. reflexivity.
Defined.

(** * The pause gate *)

Lemma pauseGated_rejects e c w :
  isPaused (globals w) <> 0 -> pauseGated c = true ->
  body e c w = (Abort "Contract is paused", w).
Proof.
  intros Hpaused Hgated. apply N.eqb_neq in Hpaused.
  destruct c; try discriminate Hgated; unfold body; unfold_methods;
    repeat (exec_step; exec_tidy); by rewrite Hpaused.
Qed.

Lemma ascending_test bronze silver gold diamond :
  bronze < silver -> silver < gold -> gold < diamond ->
  ((bronze <? silver) && (silver <? gold) && (gold <? diamond))%bool = true.
Proof.
  intros Hb Hs Hg. apply N.ltb_lt in Hb, Hs, Hg. by rewrite Hb, Hs, Hg.
Qed.

Lemma exempt_exactly_when e c w :
  pauseExempt c = true -> (succeeds (call e c w) <-> ownChecks e c w).
Proof.
  intros Hex. unfold succeeds, call, body.
  destruct c; try discriminate Hex; cbn [ownChecks]; split.
  all: try (exec; cbn [fst]; intros [r Hr]; try discriminate Hr;
            bool_facts; arith_facts; repeat split; try done; lia).
  all: intros H; repeat match goal with H : _ /\ _ |- _ => destruct H end;
    try match goal with
    | Hb : ?b < ?s, Hs : ?s < ?g, Hg : ?g < ?d |- _ =>
        pose proof (ascending_test b s g d Hb Hs Hg)
    end;
    exec; cbn [fst]; try congruence;
    bool_facts; arith_facts; arith_nones; subst;
    try done; try lia; by eexists.
Qed.

(** C6, as amended.  While [isPaused] is 1, the methods that start with
    the not-paused guard ([registerCreator], [updateProfile],
    [setRevenueSplit], [removeRevenueSplit], [sendTip] and [mintBadge])
    fail with "Contract is paused" before any write, so the call is
    rejected with the state unchanged; [getPlatformStats] returns
    [totalTipsProcessed]; and [unpauseContract] called by the admin
    succeeds and clears the flag.  Every method is gated, read-only or
    one of the eight exempt methods ([pauseContract], [unpauseContract],
    [transferAdmin], [acceptAdmin], [setMinTipAmount], [setPlatformFee],
    [withdrawPlatformFees], [setBadgeThresholds]), and an exempt method
    returns in the paused state exactly when its own checks pass. *)
Theorem pause_gate (e : Env) (c : Call) (w : World) :
  isPaused (globals w) = 1 ->
  (pauseGated c = true ->
   body e c w = (Abort "Contract is paused", w)
   /\ call e c w = (Abort "Contract is paused", w))
  /\ call e GetPlatformStats w =
     (Done (RetUint64 (totalTipsProcessed (globals w))), w)
  /\ (sender e = adminAddress (globals w) ->
      call e UnpauseContract w =
      (Done (RetString "Contract unpaused"),
       mkWorld (set_isPaused 0 (globals w)) (locals w) (itxns w)
               (logs w ++ ["TipJar:Unpaused"])))
  /\ (pauseGated c || readOnly c || pauseExempt c)%bool = true
  /\ (pauseExempt c = true -> (succeeds (call e c w) <-> ownChecks e c w)).
Proof.
  intros Hpaused. split; [|split; [|split; [|split]]].
  - intros Hgated.
    assert (Hbody : body e c w = (Abort "Contract is paused", w))
      by (apply pauseGated_rejects; [lia|done]).
    split; [done|]. by eapply call_of_body_Abort.
  - reflexivity.
  - intros Hadmin. unfold call, body. exec; [done|].
    bool_facts. done.
  - by destruct c.
  - apply exempt_exactly_when.
Qed.

(** In the paused state a tip is rejected, the pending admin can
    accept the role, and the admin can unpause. *)
Lemma pause_gate_witness :
  isPaused (globals pausedHandoffWorld) = 1
  /\ (pauseGated (snd tipC) = true
      /\ call (envOf supporterS) (snd tipC) pausedHandoffWorld
         = (Abort "Contract is paused", pausedHandoffWorld))
  /\ (pauseExempt AcceptAdmin = true
      /\ ownChecks (envOf newcomerN) AcceptAdmin pausedHandoffWorld
      /\ succeeds (call (envOf newcomerN) AcceptAdmin pausedHandoffWorld))
  /\ sender (envOf deployer) = adminAddress (globals pausedHandoffWorld)
  /\ isPaused
       (globals (snd (call (envOf deployer) UnpauseContract pausedHandoffWorld)))
     = 0.
Proof.
  assert (Hpaused : isPaused (globals pausedHandoffWorld) = 1)
    by (vm_compute; reflexivity).
  assert (Hadmin : sender (envOf deployer)
                   = adminAddress (globals pausedHandoffWorld))
    by (vm_compute; reflexivity).
  assert (Hown : ownChecks (envOf newcomerN) AcceptAdmin pausedHandoffWorld)
    by (vm_compute; split; [discriminate|reflexivity]).
  destruct (pause_gate (envOf supporterS) (snd tipC) pausedHandoffWorld Hpaused)
    as (Hgate & _ & _ & _ & _).
  destruct (pause_gate (envOf newcomerN) AcceptAdmin pausedHandoffWorld Hpaused)
    as (_ & _ & _ & _ & Hexempt).
  destruct (pause_gate (envOf deployer) UnpauseContract pausedHandoffWorld Hpaused)
    as (_ & _ & Hunpause & _ & _).
  split; [exact Hpaused|]. split; [|split; [|split]].
  - split; [reflexivity|]. apply Hgate. reflexivity.
  - split; [reflexivity|]. split; [exact Hown|].
    apply (Hexempt eq_refl). exact Hown.
  - exact Hadmin.
  - rewrite (Hunpause Hadmin). reflexivity.
Defined.

(** C6 as stated fails.  In a paused state reached from creation, three
    mutating methods that are neither unpause nor an admin setting
    return: [acceptAdmin] by the pending admin, who is not the admin,
    replaces the admin; [transferAdmin] by the admin replaces the pending
    admin; [pauseContract] by the admin logs one more event. *)
Lemma pause_gate_counterexample :
  isPaused (globals pausedHandoffWorld) = 1
  /\ (fst (call (envOf newcomerN) AcceptAdmin pausedHandoffWorld)
        = Done (RetString "Admin role accepted")
      /\ adminAddress (globals pausedHandoffWorld) = deployer
      /\ adminAddress
           (globals (step pausedHandoffWorld (envOf newcomerN, AcceptAdmin)))
         = newcomerN)
  /\ (fst (call (envOf deployer) (TransferAdmin supporterS) pausedHandoffWorld)
        = Done (RetString
                  "Admin transfer initiated - new admin must call acceptAdmin()")
      /\ pendingAdminAddress (globals pausedHandoffWorld) = newcomerN
      /\ pendingAdminAddress
           (globals
              (step pausedHandoffWorld (envOf deployer, TransferAdmin supporterS)))
         = supporterS)
  /\ (fst (call (envOf deployer) PauseContract pausedHandoffWorld)
        = Done (RetString "Contract paused")
      /\ logs (step pausedHandoffWorld (envOf deployer, PauseContract))
         = (logs pausedHandoffWorld ++ ["TipJar:Paused"])%list).
Proof. vm_compute. repeat split. Qed.

(** * The admin handoff *)

Lemma pendingDiffers_step e c w :
  pendingDiffers w -> pendingDiffers (step w (e, c)).
Proof.
  unfold pendingDiffers. intros Hinv.
  destruct (step_effect e c w)
    as [_ _ _ [Ha Hp]
       |n b cat i _ _ _ _ _ _ _ [Ha Hp]
       |a m p paid _ _ _ _ _ _ _ [Ha Hp]
       |p' _ _ _ _ _ _ _ [Ha Hp]
       |n _ Hs Hn Ha Hp _ _ _
       |_ _ _ _ Hp _ _ _
       |amt _ _ _ _ _ _ [Ha Hp]
       |s t a _ _ _ _ [Ha Hp]];
    rewrite ?Ha, ?Hp; try done.
  - right. congruence.
  - by left.
Qed.

Lemma pendingDiffers_run e0 cs : pendingDiffers (run e0 cs).
Proof.
  apply run_ind; [by left|]. intros; by apply pendingDiffers_step.
Qed.

Lemma adminOnly_rejects e c w :
  adminOnly c = true -> sender e <> adminAddress (globals w) ->
  call e c w = (Abort "Only admin can perform this action", w).
Proof.
  intros Honly Hne. apply String.eqb_neq in Hne.
  apply call_of_body_Abort with (w1 := w).
  destruct c; try discriminate Honly; unfold body; unfold_methods;
    repeat (exec_step; exec_tidy); by rewrite Hne.
Qed.

(** C7. [transferAdmin] is rejected when the caller is not the admin or
    the proposed admin is the current admin, and when it succeeds it
    writes [pendingAdminAddress] and nothing else (and logs the event).
    [acceptAdmin] is rejected when no transfer is pending and when the
    caller is not the pending admin; when it succeeds it makes the caller
    the admin and empties the pending slot, and in every state reached
    from creation the previous admin is then rejected by every
    admin-only method.  A call changes [adminAddress] only if it is a
    successful [acceptAdmin]. *)
Theorem admin_handoff (e : Env) (newAdmin : Account) (c : Call) (w : World) :
  (sender e <> adminAddress (globals w) \/ newAdmin = adminAddress (globals w) ->
   exists msg, transferAdmin e newAdmin w = (Abort msg, w))
  /\ (forall r w',
        transferAdmin e newAdmin w = (Done r, w') ->
        w' = mkWorld (set_pendingAdminAddress newAdmin (globals w)) (locals w)
               (itxns w) (logs w ++ ["TipJar:AdminTransferInitiated"]))
  /\ (pendingAdminAddress (globals w) = ""
      \/ sender e <> pendingAdminAddress (globals w) ->
      exists msg, acceptAdmin e w = (Abort msg, w))
  /\ (forall r w',
        acceptAdmin e w = (Done r, w') ->
        w' = mkWorld
               (set_pendingAdminAddress ""
                  (set_adminAddress (sender e) (globals w)))
               (locals w) (itxns w) (logs w ++ ["TipJar:AdminTransferred"])
        /\ forall e0 cs previous m,
             w = run e0 cs ->
             sender previous = adminAddress (globals w) ->
             adminOnly m = true ->
             rejects (call previous m w'))
  /\ (adminAddress (globals (step w (e, c))) <> adminAddress (globals w) ->
      c = AcceptAdmin /\ succeeds (call e c w)).
Proof.
  split; [|split; [|split; [|split]]].
  - intros Hbad. exec; try (by eexists). bool_facts. exfalso.
    destruct Hbad; congruence.
  - intros r w' Hrun. by apply transferAdmin_Done in Hrun as (_ & _ & ->).
  - intros Hbad. exec; try (by eexists). bool_facts. exfalso.
    destruct Hbad; congruence.
  - intros r w' Hrun.
    apply acceptAdmin_Done in Hrun as (Hpending & Hsender & ->).
    split; [done|]. intros e0 cs previous m -> Hprev Honly.
    exists "Only admin can perform this action".
    rewrite adminOnly_rejects; [done|done|].
    cbn [globals adminAddress set_pendingAdminAddress set_adminAddress].
    destruct (pendingDiffers_run e0 cs) as [Hnone|Hdiff]; congruence.
  - intros Hchanged.
    destruct (step_effect e c w)
      as [_ _ _ [Ha Hp]
         |n b cat i _ _ _ _ _ _ _ [Ha Hp]
         |a m p paid _ _ _ _ _ _ _ [Ha Hp]
         |p' _ _ _ _ _ _ _ [Ha Hp]
         |n _ Hs Hn Ha Hp _ _ _
         |Hc _ _ _ Hp _ _ _
         |amt _ _ _ _ _ _ [Ha Hp]
         |s t a _ _ _ _ [Ha Hp]];
      try (by destruct Hchanged).
    split; [done|]. subst c.
    unfold succeeds, step, call in *; cbn [fst snd] in *.
    destruct (body e AcceptAdmin w) as [[r|msg] w1]; [by eexists|done].
Qed.

(** While nothing is pending, an outsider can neither start nor accept a
    transfer; once [newcomerN] has accepted the handoff proposed by
    [deployer], [deployer] can no longer pause the contract. *)
Lemma admin_handoff_witness :
  sender (envOf newcomerN) <> adminAddress (globals worldC)
  /\ (exists msg,
        transferAdmin (envOf newcomerN) supporterS worldC = (Abort msg, worldC))
  /\ pendingAdminAddress (globals worldC) = ""
  /\ (exists msg, acceptAdmin (envOf newcomerN) worldC = (Abort msg, worldC))
  /\ acceptAdmin (envOf newcomerN) handoffWorld
     = (Done "Admin role accepted", step handoffWorld (envOf newcomerN, AcceptAdmin))
  /\ sender (envOf deployer) = adminAddress (globals handoffWorld)
  /\ rejects (call (envOf deployer) PauseContract
                (step handoffWorld (envOf newcomerN, AcceptAdmin))).
Proof.
  assert (Hne : sender (envOf newcomerN) <> adminAddress (globals worldC))
    by (vm_compute; discriminate).
  assert (Hnone : pendingAdminAddress (globals worldC) = "")
    by (vm_compute; reflexivity).
  assert (Hrun :
    acceptAdmin (envOf newcomerN) handoffWorld
    = (Done "Admin role accepted", step handoffWorld (envOf newcomerN, AcceptAdmin)))
    by (vm_compute; reflexivity).
  assert (Hprev : sender (envOf deployer) = adminAddress (globals handoffWorld))
    by (vm_compute; reflexivity).
  destruct (admin_handoff (envOf newcomerN) supporterS AcceptAdmin worldC)
    as (Htransfer & _ & Haccept & _ & _).
  destruct (admin_handoff (envOf newcomerN) supporterS AcceptAdmin handoffWorld)
    as (_ & _ & _ & Hafter & _).
  destruct (Hafter _ _ Hrun) as [_ Hloses].
  split; [exact Hne|]. split; [apply Htransfer; left; exact Hne|].
  split; [exact Hnone|]. split; [apply Haccept; left; exact Hnone|].
  split; [exact Hrun|]. split; [exact Hprev|].
  apply (Hloses (envOf deployer) [(envOf deployer, TransferAdmin newcomerN)]
           (envOf deployer) PauseContract);
    [reflexivity | exact Hprev | reflexivity].
Defined.

(** * Registration happens once *)

Lemma registersAs_not_register a w e c :
  (forall n b cat i, c <> RegisterCreator n b cat i) -> registersAs a w (e, c) = 0.
Proof.
  intros Hc. unfold registersAs; cbn [fst snd]. destruct c; try done.
  by destruct (Hc name bio category profileImage).
Qed.

(** One call keeps the registry sound; an account's flag and
    [totalCreators] move by the registrations the call makes. *)
Lemma register_step a e c w :
  registryOk w ->
  registryOk (step w (e, c))
  /\ isRegistered (profileOf a (step w (e, c))) =
       isRegistered (profileOf a w) + registersAs a w (e, c)
  /\ totalCreators (globals (step w (e, c))) =
       totalCreators (globals w) + registersAs (sender e) w (e, c).
Proof.
  intros [Hflag Htotal].
  assert (Hreg01 : forall b, isRegistered (profileOf b w) <> 1 ->
                             isRegistered (profileOf b w) = 0)
    by (intros b; destruct (Hflag b); congruence).
  unfold registryOk, registeredProfiles in *.
  destruct (step_effect e c w)
    as [Hl _ (Hc & _ & _) _
       |n b cat i Hcall Hreg Hl Hc _ _ _ _
       |x m p paid Hcall Hreg Hl Hc _ _ _ _
       |p' Hreg Hl Hreg' _ _ _ (Hc & _ & _) _
       |n Hcall _ _ _ _ Hl _ (Hc & _ & _)
       |Hcall _ _ _ _ Hl _ (Hc & _ & _)
       |amt Hcall _ _ _ Hl (Hc & _ & _) _
       |s t x Hcall _ Hl (Hc & _ & _) _].
  - (* nothing committed to the registry *)
    assert (Hz : forall b, registersAs b w (e, c) = 0).
    { intros b. unfold registersAs; cbn [fst snd].
      destruct c; try done.
      unfold step in Hc; cbn [fst snd] in Hc.
      destruct (call e (RegisterCreator name bio category profileImage) w)
        as [[r|msg] w1] eqn:Hcall; [|done]; cbn [fst].
      exfalso. cbn [snd] in *.
      unfold call, body in Hcall. rewrite returning_run in Hcall.
      destruct (registerCreator e name bio category profileImage w)
        as [[s|msg] w2] eqn:Hrun; [|done].
      injection Hcall as _ <-.
      apply registerCreator_Done in Hrun as (_ & _ & ->).
      cbn [globals set_totalCreators totalCreators] in Hc. lia. }
    rewrite !Hz, !N.add_0_r. unfold profileOf. rewrite Hl, Hc. done.
  - (* a registration *)
    subst c.
    assert (Hdone : exists r, fst (call e (RegisterCreator n b cat i) w) = Done r).
    { unfold step in Hc; cbn [fst snd] in Hc.
      destruct (call e (RegisterCreator n b cat i) w) as [[r|msg] w1] eqn:Hcall;
        [by eexists|].
      exfalso. cbn [snd] in *.
      unfold call, body in Hcall. rewrite returning_run in Hcall.
      destruct (registerCreator e n b cat i w) as [[s|msg'] w2]; [done|].
      injection Hcall as _ <-. lia. }
    destruct Hdone as [r Hdone].
    unfold registersAs; cbn [fst snd]. rewrite Hdone.
    pose proof (sumOver_insert registeredOne (locals w) (sender e)
                  (mkProfile n b cat 0 0 1 i "" 0 "") eq_refl) as Hsum.
    destruct (credited_unregistered _ Hreg) as (_ & _ & E).
    unfold profileOf in *. rewrite E in Hsum. cbn in Hsum.
    rewrite Hl, Hc, String.eqb_refl.
    split; [split|split]; [| lia | | lia].
    + intros x. destruct (decide (x = sender e)) as [->|Hne].
      * rewrite profileIn_insert_eq. by right.
      * rewrite profileIn_insert_ne by done. apply Hflag.
    + destruct (String.eqb_spec (sender e) a) as [<-|Hne].
      * rewrite profileIn_insert_eq. rewrite (Hreg01 _ Hreg). done.
      * rewrite profileIn_insert_ne by done. lia.
  - (* a tip *)
    rewrite !registersAs_not_register by (subst c; done). rewrite !N.add_0_r.
    set (q := set_tipCount _ _) in *.
    pose proof (sumOver_insert registeredOne (locals w) x q eq_refl) as Hsum.
    destruct (credited_registered _ Hreg) as (_ & _ & E).
    assert (Hq : isRegistered q = 1) by exact Hreg.
    destruct (credited_registered _ Hq) as (_ & _ & F).
    unfold profileOf in *. rewrite E, F in Hsum. rewrite Hl, Hc.
    split; [split|split]; [| lia | | lia].
    + intros y. destruct (decide (y = x)) as [->|Hne].
      * rewrite profileIn_insert_eq. by right.
      * rewrite profileIn_insert_ne by done. apply Hflag.
    + destruct (decide (a = x)) as [->|Hne].
      * rewrite profileIn_insert_eq. congruence.
      * by rewrite profileIn_insert_ne.
  - (* a profile edit *)
    assert (Hz : forall b, registersAs b w (e, c) = 0).
    { intros b. unfold registersAs; cbn [fst snd].
      destruct c; try done.
      destruct (call e (RegisterCreator name bio category profileImage) w)
        as [[r|msg] w1] eqn:Hcall; [|done]; cbn [fst].
      exfalso.
      unfold call, body in Hcall. rewrite returning_run in Hcall.
      destruct (registerCreator e name bio category profileImage w)
        as [[s|msg] w2] eqn:Hrun; [|done].
      by apply registerCreator_Done in Hrun as (_ & ? & _). }
    rewrite !Hz, !N.add_0_r.
    pose proof (sumOver_insert registeredOne (locals w) (sender e) p' eq_refl) as Hsum.
    destruct (credited_registered _ Hreg) as (_ & _ & E).
    destruct (credited_registered _ Hreg') as (_ & _ & F).
    unfold profileOf in *. rewrite E, F in Hsum. rewrite Hl, Hc.
    split; [split|split]; [| lia | | lia].
    + intros y. destruct (decide (y = sender e)) as [->|Hne].
      * rewrite profileIn_insert_eq. by right.
      * rewrite profileIn_insert_ne by done. apply Hflag.
    + destruct (decide (a = sender e)) as [->|Hne].
      * rewrite profileIn_insert_eq. congruence.
      * by rewrite profileIn_insert_ne.
  - rewrite !registersAs_not_register by (subst c; done). rewrite !N.add_0_r.
    unfold profileOf. rewrite Hl, Hc. done.
  - rewrite !registersAs_not_register by (subst c; done). rewrite !N.add_0_r.
    unfold profileOf. rewrite Hl, Hc. done.
  - rewrite !registersAs_not_register by (subst c; done). rewrite !N.add_0_r.
    unfold profileOf. rewrite Hl, Hc. done.
  - rewrite !registersAs_not_register by (subst c; done). rewrite !N.add_0_r.
    unfold profileOf. rewrite Hl, Hc. done.
Qed.

Lemma registryOk_created e : registryOk (created e).
Proof. rewrite created_state. split; [by left|done]. Qed.

Lemma registryOk_run e0 cs : registryOk (run e0 cs).
Proof.
  apply run_ind; [apply registryOk_created|].
  intros w e c Hok. by destruct (register_step "" e c w Hok).
Qed.

Lemma registrations_from a cs : forall w,
  registryOk w ->
  isRegistered (profileOf a (fold_left step cs w)) =
  isRegistered (profileOf a w) + registrationsBy a w cs.
Proof.
  induction cs as [|[e c] cs IH]; intros w Hok; cbn [fold_left registrationsBy].
  - lia.
  - destruct (register_step a e c w Hok) as (Hok' & Hflag & _).
    rewrite (IH _ Hok'), Hflag. lia.
Qed.

(** C8. When the caller's profile already has [isRegistered] = 1,
    [registerCreator] fails before any write and the call is rejected
    with the state, hence [totalCreators] and the profile, unchanged.
    After creation and any calls, a further call raises an account's
    [isRegistered] exactly when it is a successful registration by that
    account, and raises [totalCreators] by one exactly when it is a
    successful registration by the caller.  So over a whole run an
    account's [isRegistered] is the number of its successful
    registrations, which is at most one, and [totalCreators] is the
    number of registered profiles. *)
Theorem register_once (e : Env) (name bio category profileImage : string)
    (w : World) (e0 : Env) (cs : list (Env * Call)) (a : Account) (c : Call) :
  (isRegistered (profileOf (sender e) w) = 1 ->
   exists msg,
     registerCreator e name bio category profileImage w = (Abort msg, w)
     /\ call e (RegisterCreator name bio category profileImage) w = (Abort msg, w))
  /\ (let v := run e0 cs in
      isRegistered (profileOf a (step v (e, c))) =
        isRegistered (profileOf a v) + registersAs a v (e, c)
      /\ totalCreators (globals (step v (e, c))) =
           totalCreators (globals v) + registersAs (sender e) v (e, c))
  /\ isRegistered (profileOf a (run e0 cs)) = registrationsBy a (created e0) cs
  /\ registrationsBy a (created e0) cs <= 1
  /\ totalCreators (globals (run e0 cs)) = registeredProfiles (run e0 cs).
Proof.
  split; [|split; [|split; [|split]]].
  - intros Hreg.
    assert (exists msg, registerCreator e name bio category profileImage w
                        = (Abort msg, w)) as [msg Hmsg].
    { unfold profileOf in *. unfold_methods.
      do 2 (repeat (exec_step; exec_tidy); exec_split; exec_tidy; [|by eexists]).
      bool_facts. congruence. }
    exists msg. split; [done|].
    apply call_of_body_Abort with (w1 := w). unfold body.
    by rewrite returning_run, Hmsg.
  - intros v.
    by destruct (register_step a e c v (registryOk_run e0 cs)) as (_ & ? & ?).
  - unfold run. rewrite registrations_from by apply registryOk_created.
    rewrite created_state. done.
  - pose proof (registrations_from a cs (created e0) (registryOk_created e0))
      as Hsum.
    fold (run e0 cs) in Hsum.
    destruct (registryOk_run e0 cs) as [Hflag _]. destruct (Hflag a); lia.
  - by destruct (registryOk_run e0 cs).
Qed.

(** [creatorC] is registered; a second registration is rejected and
    over the two calls the account registered once. *)
Lemma register_once_witness :
  isRegistered (profileOf (sender (envOf creatorC)) worldC) = 1
  /\ (exists msg,
        call (envOf creatorC) (RegisterCreator "again" "bio" "art" "") worldC
        = (Abort msg, worldC))
  /\ registrationsBy creatorC (created (envOf deployer))
       [registerC; (envOf creatorC, RegisterCreator "again" "bio" "art" "")] = 1
  /\ totalCreators
       (globals
          (run (envOf deployer)
             [registerC; (envOf creatorC, RegisterCreator "again" "bio" "art" "")]))
     = 1.
Proof.
  assert (Hreg : isRegistered (profileOf (sender (envOf creatorC)) worldC) = 1)
    by (vm_compute; reflexivity).
  destruct (register_once (envOf creatorC) "again" "bio" "art" "" worldC
              (envOf deployer)
              [registerC; (envOf creatorC, RegisterCreator "again" "bio" "art" "")]
              creatorC AcceptAdmin)
    as (Hsecond & _ & Hflag & _ & Htotal).
  destruct (Hsecond Hreg) as (msg & _ & Hcall).
  split; [exact Hreg|]. split; [by exists msg|]. split.
  - rewrite <- Hflag. vm_compute. reflexivity.
  - rewrite Htotal. vm_compute. reflexivity.
Defined.

(** * The collaborator of a revenue split *)





(** * Badges *)



(** * Further properties of the contract *)

(** * Every committed call, method by method *)

Lemma step_committed e c w : committed e w c (step w (e, c)).
Proof.
  destruct c; try (unfold step, call, body; cbn [fst snd]; exec;
    try (by apply CoSame); bool_facts; arith_facts; subst;
    by econstructor).
  - (* sendTip *)
    unfold step, call, body; cbn [fst snd]. rewrite returning_run.
    destruct (sendTip e creator message tipPayment w) as [[s|msg] w1] eqn:Hrun;
      [|apply CoSame].
    apply sendTip_Done in Hrun as (? & ? & ? & ? & ? & ? & ->).
    by apply CoTip.
  - (* mintBadge *)
    unfold step, call, body; cbn [fst snd]. exec; try (by apply CoSame).
    match goal with
    | H : (_ || _)%bool = true |- _ =>
        apply orb_true_iff in H; rewrite !String.eqb_eq in H
    end.
    bool_facts; arith_facts; subst. by apply CoMint.
Qed.


Ltac committed_simpl :=
  unfold withLog, withGlobals, withProfile, withItxn in *;
  cbn [globals locals itxns logs] in *.

(** * Money *)

Lemma sumPayments_snoc ts t : sumPayments (ts ++ [t]) = sumPayments ts + paymentOf t.
Proof.
  unfold sumPayments. induction ts as [|x ts IH]; cbn [app fold_right]; lia.
Qed.

Lemma paidOf_le w a p : paidOf w a p <= afterFeeOf w p.
Proof. unfold paidOf. destruct (0 <? _); lia. Qed.

Lemma backed_step e c w :
  sumPayments (itxns w) + totalFeesAccumulated (globals w)
    <= totalTipsProcessed (globals w) ->
  sumPayments (itxns (step w (e, c)))
    + totalFeesAccumulated (globals (step w (e, c)))
    <= totalTipsProcessed (globals (step w (e, c))).
Proof.
  intros Hinv.
  destruct (step_committed e c w); committed_simpl;
    rewrite ?sumPayments_snoc; cbn; try lia.
  pose proof (paidOf_le w a p). unfold afterFeeOf in *. lia.
Qed.

Lemma backed_run (e0 : Env) (cs : list (Env * Call)) :
  sumPayments (itxns (run e0 cs)) + totalFeesAccumulated (globals (run e0 cs))
  <= totalTipsProcessed (globals (run e0 cs)).
Proof.
  apply (run_ind (fun w => sumPayments (itxns w) + totalFeesAccumulated (globals w)
                           <= totalTipsProcessed (globals w))).
  - rewrite created_state. cbn. lia.
  - intros w e c. apply backed_step.
Qed.

(** X1. After creation and any sequence of calls, what the contract has paid
    out in inner payments plus the fees it still holds is at most
    [totalTipsProcessed]: every payout and every fee withdrawal is
    covered by tips taken before. *)
Theorem payouts_backed_by_tips (e0 : Env) (cs : list (Env * Call)) :
  sumPayments (itxns (run e0 cs)) + totalFeesAccumulated (globals (run e0 cs))
  <= totalTipsProcessed (globals (run e0 cs)).
Proof. exact (backed_run e0 cs). Qed.

(** * Settings *)

Lemma settingsOk_step e c w :
  settingsOk (globals w) -> settingsOk (globals (step w (e, c))).
Proof.
  unfold settingsOk. intros Hinv.
  destruct (step_committed e c w); committed_simpl; cbn; try done; lia.
Qed.

Lemma settingsOk_run (e0 : Env) (cs : list (Env * Call)) :
  settingsOk (globals (run e0 cs)).
Proof.
  apply (run_ind (fun w => settingsOk (globals w))).
  - rewrite created_state. unfold settingsOk. cbn. lia.
  - intros w e c. apply settingsOk_step.
Qed.

(** X2. After creation and any sequence of calls the settings are within the
    bounds their setters check: [platformFeeBps] is at most 1000,
    [minTipAmount] is at least 10,000, the four badge thresholds are
    strictly ascending, and [isPaused] is 0 or 1. *)
Theorem settings_stay_in_range (e0 : Env) (cs : list (Env * Call)) :
  settingsOk (globals (run e0 cs)).
Proof. exact (settingsOk_run e0 cs). Qed.

Lemma tenth_step e c w :
  settingsOk (globals w) ->
  10 * totalFeesAccumulated (globals w) <= totalTipsProcessed (globals w) ->
  10 * totalFeesAccumulated (globals (step w (e, c)))
    <= totalTipsProcessed (globals (step w (e, c))).
Proof.
  intros (Hbps & _) Hinv.
  destruct (step_committed e c w); committed_simpl; cbn; try lia.
  pose proof (fee_bound (amount p) _ Hbps). unfold feeOf. lia.
Qed.

(** X3. After creation and any sequence of calls, [totalFeesAccumulated] is
    at most a tenth of [totalTipsProcessed], whatever fee rates the admin
    has set in between and whatever was withdrawn. *)
Theorem fees_at_most_a_tenth (e0 : Env) (cs : list (Env * Call)) :
  10 * totalFeesAccumulated (globals (run e0 cs))
  <= totalTipsProcessed (globals (run e0 cs)).
Proof.
  assert (settingsOk (globals (run e0 cs))
          /\ 10 * totalFeesAccumulated (globals (run e0 cs))
             <= totalTipsProcessed (globals (run e0 cs))) as [_ H]; [|exact H].
  apply (run_ind (fun w => settingsOk (globals w)
                           /\ 10 * totalFeesAccumulated (globals w)
                              <= totalTipsProcessed (globals w))).
  - rewrite created_state. unfold settingsOk. cbn. lia.
  - intros w e c [Hs Ht]. split; [by apply settingsOk_step|by apply tenth_step].
Qed.

(** * Badges are counted *)

Lemma countBadges_snoc ts t :
  countBadges (ts ++ [t]) = countBadges ts + (if isAssetConfig t then 1 else 0).
Proof.
  unfold countBadges. induction ts as [|x ts IH]; cbn [app fold_right]; lia.
Qed.

(** X4. After creation and any sequence of calls, [totalBadgesMinted] is the
    number of asset creations among the contract's inner transactions. *)
Theorem badges_counted (e0 : Env) (cs : list (Env * Call)) :
  totalBadgesMinted (globals (run e0 cs)) = countBadges (itxns (run e0 cs)).
Proof.
  apply (run_ind (fun w => totalBadgesMinted (globals w) = countBadges (itxns w))).
  - rewrite created_state. done.
  - intros w e c Hinv.
    destruct (step_committed e c w); committed_simpl;
      rewrite ?countBadges_snoc; cbn; lia.
Qed.


(** * Profiles *)

Lemma profileOf_insert_eq g (l : gmap string Profile) i lg a p :
  profileOf a (mkWorld g (<[a := p]> l) i lg) = p.
Proof. unfold profileOf; cbn [locals]. apply profileIn_insert_eq. Qed.

Lemma profileOf_insert_ne g (l : gmap string Profile) i lg a b p w :
  locals w = l -> a <> b ->
  profileOf b (mkWorld g (<[a := p]> l) i lg) = profileOf b w.
Proof.
  intros <- Hne. unfold profileOf; cbn [locals]. by apply profileIn_insert_ne.
Qed.

Lemma registered_ok w a :
  profilesOk w -> isRegistered (profileOf a w) = 1 ->
  textsOk (profileOf a w) /\ splitOk (profileOf a w).
Proof.
  intros Hok Hreg. destruct (Hok a) as [Hnone|(_ & Ht & Hs)]; [|done].
  rewrite Hnone in Hreg. discriminate Hreg.
Qed.

Lemma profilesOk_step e c w : profilesOk w -> profilesOk (step w (e, c)).
Proof.
  intros Hok.
  destruct (step_committed e c w) as
    [c| | | | |n b cat i Hp Hreg Hn Hb Hc Hi
     |n b cat i Hp Hreg Hn Hb Hc Hi
     |addr name pct Hp Hreg Hpct Haddr Hname
     |Hp Hreg
     |x m p Hp Hreg Hmin Hself Hfee Hshare
     | | | | | ];
    committed_simpl; try exact Hok; intros a.
  - (* registerCreator *)
    destruct (decide (sender e = a)) as [<-|Hne].
    + rewrite profileOf_insert_eq. right. split; [done|]. split; [done|].
      by left.
    + rewrite (profileOf_insert_ne _ _ _ _ _ _ _ w) by done. apply Hok.
  - (* updateProfile *)
    destruct (decide (sender e = a)) as [<-|Hne].
    + rewrite profileOf_insert_eq. right.
      destruct (registered_ok _ _ Hok Hreg) as [_ Hs].
      split; [exact Hreg|]. split; [done|exact Hs].
    + rewrite (profileOf_insert_ne _ _ _ _ _ _ _ w) by done. apply Hok.
  - (* setRevenueSplit *)
    destruct (decide (sender e = a)) as [<-|Hne].
    + rewrite profileOf_insert_eq. right.
      destruct (registered_ok _ _ Hok Hreg) as [Ht _].
      split; [exact Hreg|]. split; [exact Ht|]. by right.
    + rewrite (profileOf_insert_ne _ _ _ _ _ _ _ w) by done. apply Hok.
  - (* removeRevenueSplit *)
    destruct (decide (sender e = a)) as [<-|Hne].
    + rewrite profileOf_insert_eq. right.
      destruct (registered_ok _ _ Hok Hreg) as [Ht _].
      split; [exact Hreg|]. split; [exact Ht|]. by left.
    + rewrite (profileOf_insert_ne _ _ _ _ _ _ _ w) by done. apply Hok.
  - (* sendTip *)
    destruct (decide (x = a)) as [<-|Hne].
    + rewrite profileOf_insert_eq. right.
      destruct (registered_ok _ _ Hok Hreg) as [Ht Hs].
      split; [exact Hreg|]. split; [exact Ht|exact Hs].
    + rewrite (profileOf_insert_ne _ _ _ _ _ _ _ w) by done. apply Hok.
Qed.

Lemma profilesOk_run e0 cs : profilesOk (run e0 cs).
Proof.
  apply run_ind; [|intros; by apply profilesOk_step].
  rewrite created_state. intros a. by left.
Qed.

Lemma splitOk_run (e0 : Env) (cs : list (Env * Call)) (a : Account) :
  splitOk (profileOf a (run e0 cs)).
Proof.
  destruct (profilesOk_run e0 cs a) as [->|(_ & _ & Hs)]; [by left|exact Hs].
Qed.

(** X5. After creation and any sequence of calls, every account's revenue
    split is either absent (empty address, empty name, zero percent) or
    complete: a 58-character address, a name of 1 to 50 characters and a
    percentage from 1 to 50. *)
Theorem split_config_wellformed (e0 : Env) (cs : list (Env * Call)) (a : Account) :
  splitOk (profileOf a (run e0 cs)).
Proof. exact (splitOk_run e0 cs a). Qed.

(** X6. After creation and any sequence of calls, a registered profile has
    a name of 1 to 50 characters, a bio of 1 to 200, a category of 1 to
    20 and an image URL of at most 200. *)
Theorem profile_texts_bounded (e0 : Env) (cs : list (Env * Call)) (a : Account) :
  isRegistered (profileOf a (run e0 cs)) = 1 ->
  textsOk (profileOf a (run e0 cs)).
Proof.
  intros Hreg. by destruct (registered_ok _ _ (profilesOk_run e0 cs) Hreg).
Qed.

(** The profile [creatorC] registered is within the limits. *)
Lemma profile_texts_bounded_witness :
  isRegistered (profileOf creatorC (run (envOf deployer) [registerC; tipC])) = 1
  /\ textsOk (profileOf creatorC (run (envOf deployer) [registerC; tipC])).
Proof.
  assert (Hreg :
    isRegistered (profileOf creatorC (run (envOf deployer) [registerC; tipC])) = 1)
    by (vm_compute; reflexivity).
  split; [exact Hreg|]. apply profile_texts_bounded. exact Hreg.
Defined.

(** X7. In a state reached from creation, a successful [sendTip] submits one
    payment to the creator, of at most the tip and of at least 45% of it
    (nine twentieths): the fee takes at most a tenth and a collaborator's
    share at most half of the rest. *)
Theorem creator_paid_at_least_45_percent (e0 : Env) (cs : list (Env * Call))
    (e : Env) (creator : Account) (message : string) (tipPayment : PaymentTxn)
    (r : string) (w' : World) :
  sendTip e creator message tipPayment (run e0 cs) = (Done r, w') ->
  exists paid,
    itxns w' = (itxns (run e0 cs) ++ [ItxnPayment creator paid 0])%list
    /\ 9 * amount tipPayment <= 20 * paid
    /\ paid <= amount tipPayment.
Proof.
  intros Hrun. set (w := run e0 cs) in *.
  apply sendTip_Done in Hrun as (_ & Hreg & _ & _ & Hfee & Hshare & ->).
  cbv zeta in *. eexists. split; [reflexivity|].
  destruct (settingsOk_run e0 cs) as (Hbps & _). fold w in Hbps.
  pose proof (fee_bound (amount tipPayment) _ Hbps) as Hten.
  destruct (N.ltb_spec 0 (revSplitPercent (profileOf creator w))) as [Hpos|Hzero].
  - specialize (Hshare Hpos).
    pose proof (splitOk_run e0 cs creator) as Hsplit. fold w in Hsplit.
    destruct Hsplit as [(_ & _ & Hz)|(_ & _ & _ & Hmax)]; [lia|].
    pose proof (share_bound (amount tipPayment
                             - amount tipPayment * platformFeeBps (globals w) / 10000)
                  _ Hmax) as Hhalf.
    set (fee := amount tipPayment * platformFeeBps (globals w) / 10000) in *.
    set (share := (amount tipPayment - fee)
                  * revSplitPercent (profileOf creator w) / 100) in *.
    clearbody fee share. lia.
  - set (fee := amount tipPayment * platformFeeBps (globals w) / 10000) in *.
    clearbody fee. lia.
Qed.

(** With the 20% split, the tip of 1,000,000 units pays the creator within the bound. *)
Lemma creator_paid_at_least_45_percent_witness :
  sendTip (envOf supporterS) creatorC "thanks" (tipOf 1000000)
    (run (envOf deployer)
       [registerC; (envOf creatorC, SetRevenueSplit addressN "K" 20)])
  = (Done "Tip of 1000000 microALGO sent to creator", step splitWorld tipAfterSplit)
  /\ exists paid,
       itxns (step splitWorld tipAfterSplit)
       = (itxns (run (envOf deployer)
                   [registerC; (envOf creatorC, SetRevenueSplit addressN "K" 20)])
          ++ [ItxnPayment creatorC paid 0])%list
       /\ 9 * amount (tipOf 1000000) <= 20 * paid
       /\ paid <= amount (tipOf 1000000).
Proof.
  assert (Hrun :
    sendTip (envOf supporterS) creatorC "thanks" (tipOf 1000000)
      (run (envOf deployer)
         [registerC; (envOf creatorC, SetRevenueSplit addressN "K" 20)])
    = (Done "Tip of 1000000 microALGO sent to creator",
       step splitWorld tipAfterSplit))
    by (vm_compute; reflexivity).
  split; [exact Hrun|].
  exact (creator_paid_at_least_45_percent _ _ _ _ _ _ _ _ Hrun).
Defined.


Lemma registered_lookup (l : gmap string Profile) a :
  isRegistered (profileIn l a) = 1 -> l !! a = Some (profileIn l a).
Proof. unfold profileIn. by destruct (l !! a). Qed.

(** * Editing a profile *)

Lemma between_test a b : 0 < a <= b -> ((0 <? a) && (a <=? b))%bool = true.
Proof.
  intros [Hpos Hle]. apply N.ltb_lt in Hpos. apply N.leb_le in Hle.
  by rewrite Hpos, Hle.
Qed.

Lemma updateProfile_ok e name bio category profileImage w :
  isPaused (globals w) = 0 ->
  isRegistered (profileOf (sender e) w) = 1 ->
  0 < strlen name <= MAX_NAME_LEN ->
  0 < strlen bio <= MAX_BIO_LEN ->
  0 < strlen category <= MAX_CATEGORY_LEN ->
  strlen profileImage <= MAX_IMAGE_LEN ->
  updateProfile e name bio category profileImage w =
  (Done "Profile updated successfully",
   withLog "TipJar:ProfileUpdated"
     (withProfile (sender e)
        (set_profileImageUrl profileImage
           (set_creatorCategory category
              (set_creatorBio bio
                 (set_creatorName name (profileOf (sender e) w))))) w)).
Proof.
  intros Hp Hreg Hn Hb Hc Hi.
  apply between_test in Hn, Hb, Hc.
  exec; try congruence; bool_facts; try done; lia.
Qed.

Lemma updateProfile_checks e name bio category profileImage w r w' :
  updateProfile e name bio category profileImage w = (Done r, w') ->
  isPaused (globals w) = 0
  /\ isRegistered (profileOf (sender e) w) = 1
  /\ 0 < strlen name <= MAX_NAME_LEN
  /\ 0 < strlen bio <= MAX_BIO_LEN
  /\ 0 < strlen category <= MAX_CATEGORY_LEN
  /\ strlen profileImage <= MAX_IMAGE_LEN.
Proof. exec; intros [= <- <-]. bool_facts. done. Qed.

(** X8. [updateProfile] is rejected, with nothing written, when the caller
    is not registered.  It returns exactly when the contract is not
    paused, the caller is registered, name, bio and category have
    between 1 and 50, 200 and 20 characters and the image URL at most
    200.  When it returns, the caller's name, bio, category and image are
    the arguments, while the caller's [tipsReceived], [tipCount],
    [isRegistered] and revenue split, every other profile, the global
    state and the inner transactions are as before. *)
Theorem updateProfile_keeps_counters_and_split (e : Env)
    (name bio category profileImage : string) (w : World) :
  (isRegistered (profileOf (sender e) w) <> 1 ->
   exists msg, updateProfile e name bio category profileImage w = (Abort msg, w))
  /\ (succeeds (updateProfile e name bio category profileImage w)
      <-> isPaused (globals w) = 0
          /\ isRegistered (profileOf (sender e) w) = 1
          /\ 0 < strlen name <= MAX_NAME_LEN
          /\ 0 < strlen bio <= MAX_BIO_LEN
          /\ 0 < strlen category <= MAX_CATEGORY_LEN
          /\ strlen profileImage <= MAX_IMAGE_LEN)
  /\ forall r w',
       updateProfile e name bio category profileImage w = (Done r, w') ->
       let p := profileOf (sender e) w in
       let p' := profileOf (sender e) w' in
       (creatorName p', creatorBio p', creatorCategory p', profileImageUrl p')
         = (name, bio, category, profileImage)
       /\ (tipsReceived p', tipCount p', isRegistered p')
            = (tipsReceived p, tipCount p, isRegistered p)
       /\ (revSplitAddress p', revSplitPercent p', revSplitName p')
            = (revSplitAddress p, revSplitPercent p, revSplitName p)
       /\ (forall a, a <> sender e -> profileOf a w' = profileOf a w)
       /\ globals w' = globals w
       /\ itxns w' = itxns w.
Proof.
  split; [|split].
  - intros Hreg. exec; try (by eexists). bool_facts. done.
  - split.
    + intros [r Hr].
      destruct (updateProfile e name bio category profileImage w)
        as [[s|msg] w'] eqn:Hrun; [|done].
      by apply updateProfile_checks in Hrun.
    + intros (Hp & Hr & Hn & Hb & Hc & Hi).
      rewrite updateProfile_ok by done. by eexists.
  - intros r w'. exec; intros [= <- <-]. cbn [globals locals itxns].
    rewrite profileIn_insert_eq. repeat split; try done.
    intros a Hne. by rewrite profileIn_insert_ne.
Qed.

(** [newcomerN] never registered and cannot update a profile.
    [creatorC], registered and tipped 2,000,000, updates its profile: the
    texts change and the 2,000,000 stay. *)
Lemma updateProfile_keeps_counters_and_split_witness :
  (isRegistered (profileOf (sender (envOf newcomerN)) tippedWorld) <> 1
   /\ exists msg,
        updateProfile (envOf newcomerN) "N" "bio" "art" "" tippedWorld
        = (Abort msg, tippedWorld))
  /\ updateProfile (envOf creatorC) "C" "paints murals" "art"
       "https://example.org/c.png" tippedWorld
     = (Done "Profile updated successfully", step tippedWorld (envOf creatorC, editC))
  /\ (let p := profileOf (sender (envOf creatorC)) tippedWorld in
      let p' := profileOf (sender (envOf creatorC))
                  (step tippedWorld (envOf creatorC, editC)) in
      (creatorName p', creatorBio p', creatorCategory p', profileImageUrl p')
        = ("C", "paints murals", "art", "https://example.org/c.png")
      /\ (tipsReceived p', tipCount p', isRegistered p')
           = (tipsReceived p, tipCount p, isRegistered p)
      /\ (revSplitAddress p', revSplitPercent p', revSplitName p')
           = (revSplitAddress p, revSplitPercent p, revSplitName p)
      /\ (forall a, a <> sender (envOf creatorC) ->
          profileOf a (step tippedWorld (envOf creatorC, editC))
          = profileOf a tippedWorld)
      /\ globals (step tippedWorld (envOf creatorC, editC)) = globals tippedWorld
      /\ itxns (step tippedWorld (envOf creatorC, editC)) = itxns tippedWorld)
  /\ tipsReceived
       (profileOf creatorC (step tippedWorld (envOf creatorC, editC)))
     = 2000000.
Proof.
  assert (Hnot : isRegistered (profileOf (sender (envOf newcomerN)) tippedWorld) <> 1)
    by (vm_compute; discriminate).
  assert (Hrun : updateProfile (envOf creatorC) "C" "paints murals" "art"
                   "https://example.org/c.png" tippedWorld
                 = (Done "Profile updated successfully",
                    step tippedWorld (envOf creatorC, editC)))
    by (vm_compute; reflexivity).
  split.
  { split; [exact Hnot|].
    exact (proj1 (updateProfile_keeps_counters_and_split (envOf newcomerN)
                    "N" "bio" "art" "" tippedWorld) Hnot). }
  split; [exact Hrun|]. split.
  { exact (proj2 (proj2 (updateProfile_keeps_counters_and_split (envOf creatorC)
                           "C" "paints murals" "art" "https://example.org/c.png"
                           tippedWorld)) _ _ Hrun). }
  vm_compute. reflexivity.
Defined.

(** * Setting and removing a revenue split *)

Lemma setRevenueSplit_Done e addr name pct w r w' :
  setRevenueSplit e addr name pct w = (Done r, w') ->
  isPaused (globals w) = 0
  /\ isRegistered (profileOf (sender e) w) = 1
  /\ w' = withLog "TipJar:RevenueSplitSet"
            (withProfile (sender e)
               (set_revSplitPercent pct
                  (set_revSplitName name
                     (set_revSplitAddress addr (profileOf (sender e) w)))) w).
Proof. exec; intros [= <- <-]. bool_facts. done. Qed.

Lemma removeRevenueSplit_ok e w :
  isPaused (globals w) = 0 ->
  isRegistered (profileOf (sender e) w) = 1 ->
  removeRevenueSplit e w =
  (Done "Revenue split removed",
   withLog "TipJar:RevenueSplitRemoved"
     (withProfile (sender e)
        (set_revSplitPercent 0
           (set_revSplitName ""
              (set_revSplitAddress "" (profileOf (sender e) w)))) w)).
Proof. intros Hp Hr. exec; bool_facts; done. Qed.

Lemma call_Done_of_body e c w r w' :
  body e c w = (Done r, w') -> call e c w = (Done r, w').
Proof. unfold call. by intros ->. Qed.

(** X9. After a successful [setRevenueSplit], [removeRevenueSplit] by the
    same caller succeeds and leaves the split empty; when the caller had
    no split before, the two calls together restore the profiles, the
    global state and the inner transactions exactly. *)
Theorem split_set_then_removed (e : Env) (addr name : string) (pct : N)
    (w : World) :
  succeeds (call e (SetRevenueSplit addr name pct) w) ->
  let w1 := step w (e, SetRevenueSplit addr name pct) in
  let w2 := step w1 (e, RemoveRevenueSplit) in
  succeeds (call e RemoveRevenueSplit w1)
  /\ (revSplitAddress (profileOf (sender e) w2),
      revSplitName (profileOf (sender e) w2),
      revSplitPercent (profileOf (sender e) w2)) = ("", "", 0)
  /\ ((revSplitAddress (profileOf (sender e) w),
       revSplitName (profileOf (sender e) w),
       revSplitPercent (profileOf (sender e) w)) = ("", "", 0) ->
      locals w2 = locals w /\ globals w2 = globals w /\ itxns w2 = itxns w).
Proof.
  intros [r Hok] w1 w2. subst w2 w1. unfold step, call, body in *.
  cbn [fst snd] in *. rewrite returning_run in Hok. rewrite !returning_run.
  destruct (setRevenueSplit e addr name pct w) as [[s|msg] v] eqn:Hset; [|done].
  apply setRevenueSplit_Done in Hset as (Hp & Hreg & ->). cbn [snd].
  rewrite removeRevenueSplit_ok; [| done |];
    [|unfold withLog, withProfile, profileOf; cbn [locals];
      by rewrite profileIn_insert_eq].
  cbn [fst snd]. split; [by eexists|].
  unfold withLog, withProfile, profileOf in *. cbn [globals locals itxns] in *.
  rewrite !profileIn_insert_eq, locals_insert_twice.
  split; [done|]. intros [= Ha Hn Hz]. split; [|done].
  apply insert_id. rewrite (registered_lookup _ _ Hreg). f_equal.
  destruct (profileIn (locals w) (sender e)); cbn in *. by subst.
Qed.

(** [creatorC] sets a split and removes it again. *)
Lemma split_set_then_removed_witness :
  succeeds (call (envOf creatorC) (SetRevenueSplit addressN "K" 20) worldC)
  /\ let w1 := step worldC (envOf creatorC, SetRevenueSplit addressN "K" 20) in
     let w2 := step w1 (envOf creatorC, RemoveRevenueSplit) in
     succeeds (call (envOf creatorC) RemoveRevenueSplit w1)
     /\ (revSplitAddress (profileOf (sender (envOf creatorC)) w2),
         revSplitName (profileOf (sender (envOf creatorC)) w2),
         revSplitPercent (profileOf (sender (envOf creatorC)) w2)) = ("", "", 0)
     /\ ((revSplitAddress (profileOf (sender (envOf creatorC)) worldC),
          revSplitName (profileOf (sender (envOf creatorC)) worldC),
          revSplitPercent (profileOf (sender (envOf creatorC)) worldC))
         = ("", "", 0) ->
         locals w2 = locals worldC /\ globals w2 = globals worldC
         /\ itxns w2 = itxns worldC).
Proof.
  assert (Hok : succeeds (call (envOf creatorC)
                            (SetRevenueSplit addressN "K" 20) worldC))
    by (exists (RetString "Revenue split configured"); vm_compute; reflexivity).
  split; [exact Hok|].
  exact (split_set_then_removed (envOf creatorC) addressN "K" 20 worldC Hok).
Defined.

(** * Pausing and unpausing *)

(** X10. On an active contract, [pauseContract] by the admin sets the flag,
    and [unpauseContract] by the admin then restores the global state;
    profiles and inner transactions are untouched by both. *)
Theorem pause_then_unpause (e : Env) (w : World) :
  sender e = adminAddress (globals w) ->
  isPaused (globals w) = 0 ->
  let w1 := step w (e, PauseContract) in
  let w2 := step w1 (e, UnpauseContract) in
  isPaused (globals w1) = 1
  /\ globals w2 = globals w /\ locals w2 = locals w /\ itxns w2 = itxns w.
Proof.
  intros Hadmin Hactive w1 w2. subst w2 w1.
  apply String.eqb_eq in Hadmin as Hadmin'.
  unfold step, call, body; cbn [fst snd].
  exec; try congruence.
  - repeat split; try done. destruct (globals w); cbn in *. by subst.
  - cbn in *. congruence.
Qed.

(** [deployer] pauses and unpauses. *)
Lemma pause_then_unpause_witness :
  sender (envOf deployer) = adminAddress (globals worldC)
  /\ isPaused (globals worldC) = 0
  /\ let w1 := step worldC (envOf deployer, PauseContract) in
     let w2 := step w1 (envOf deployer, UnpauseContract) in
     isPaused (globals w1) = 1
     /\ globals w2 = globals worldC /\ locals w2 = locals worldC
     /\ itxns w2 = itxns worldC.
Proof.
  assert (Hadmin : sender (envOf deployer) = adminAddress (globals worldC))
    by (vm_compute; reflexivity).
  assert (Hactive : isPaused (globals worldC) = 0) by (vm_compute; reflexivity).
  split; [exact Hadmin|]. split; [exact Hactive|].
  exact (pause_then_unpause (envOf deployer) worldC Hadmin Hactive).
Defined.


(** * Queries *)

(** X11. A read-only method leaves the state as it found it, whether it
    returns or fails, and its outcome does not depend on the caller. *)
Theorem getters_read_only (e e' : Env) (c : Call) (w : World) :
  readOnly c = true ->
  snd (body e c w) = w
  /\ step w (e, c) = w
  /\ body e c w = body e' c w.
Proof.
  intros Hread.
  assert (snd (body e c w) = w /\ body e c w = body e' c w) as [Hsame Hcaller].
  { destruct c; try discriminate Hread; unfold body; exec; done. }
  split; [exact Hsame|]. split; [|exact Hcaller].
  unfold step, call; cbn [fst snd].
  destruct (body e c w) as [[r|msg] w1]; [exact Hsame|reflexivity].
Qed.

(** Asking for the name of an account changes nothing, whoever asks. *)
Lemma getters_read_only_witness :
  readOnly (GetCreatorName newcomerN) = true
  /\ snd (body (envOf supporterS) (GetCreatorName newcomerN) tippedWorld)
     = tippedWorld
  /\ step tippedWorld (envOf supporterS, GetCreatorName newcomerN) = tippedWorld
  /\ body (envOf supporterS) (GetCreatorName newcomerN) tippedWorld
     = body (envOf deployer) (GetCreatorName newcomerN) tippedWorld.
Proof.
  split; [reflexivity|].
  exact (getters_read_only (envOf supporterS) (envOf deployer)
           (GetCreatorName newcomerN) tippedWorld eq_refl).
Defined.



(** * Withdrawing fees *)

Lemma withdrawPlatformFees_ok e amt w :
  sender e = adminAddress (globals w) ->
  0 < amt ->
  amt <= totalFeesAccumulated (globals w) ->
  amt + MIN_CONTRACT_BALANCE <= currentApplicationBalance e ->
  withdrawPlatformFees e amt w =
  (Done "Platform fees withdrawn",
   withLog "TipJar:FeesWithdrawn"
     (withGlobals
        (set_totalFeesAccumulated (totalFeesAccumulated (globals w) - amt)
           (globals w))
        (withItxn (ItxnPayment (sender e) amt 0) w))).
Proof.
  intros Hadmin Hpos Hfees Hbal. exec; bool_facts; arith_facts; arith_nones; subst;
    try done; try lia.
Qed.

Lemma withdrawPlatformFees_Done e amt w r w' :
  withdrawPlatformFees e amt w = (Done r, w') ->
  sender e = adminAddress (globals w)
  /\ 0 < amt
  /\ amt <= totalFeesAccumulated (globals w)
  /\ amt + MIN_CONTRACT_BALANCE <= currentApplicationBalance e.
Proof.
  exec; intros [= <- <-]. bool_facts; arith_facts. repeat split; try done. lia.
Qed.

(** X13. [withdrawPlatformFees] returns exactly when the caller is the admin,
    the amount is positive and at most [totalFeesAccumulated], and the
    contract's balance is at least the amount plus the minimum balance of
    100,000.  When it fails it has written nothing; when it returns it
    has lowered [totalFeesAccumulated] by the amount and submitted one
    payment of the amount to the caller. *)
Theorem withdraw_exactly_when (e : Env) (amt : N) (w : World) :
  (succeeds (withdrawPlatformFees e amt w)
   <-> sender e = adminAddress (globals w)
       /\ 0 < amt
       /\ amt <= totalFeesAccumulated (globals w)
       /\ amt + MIN_CONTRACT_BALANCE <= currentApplicationBalance e)
  /\ (rejects (withdrawPlatformFees e amt w) ->
      snd (withdrawPlatformFees e amt w) = w)
  /\ (succeeds (withdrawPlatformFees e amt w) ->
      let w' := snd (withdrawPlatformFees e amt w) in
      totalFeesAccumulated (globals w') = totalFeesAccumulated (globals w) - amt
      /\ itxns w' = (itxns w ++ [ItxnPayment (sender e) amt 0])%list
      /\ locals w' = locals w).
Proof.
  split; [|split].
  - split.
    + intros [r Hr].
      destruct (withdrawPlatformFees e amt w) as [[s|msg] w'] eqn:Hrun; [|done].
      by apply withdrawPlatformFees_Done in Hrun.
    + intros (Ha & Hp & Hf & Hb). rewrite withdrawPlatformFees_ok by done.
      by eexists.
  - intros [msg Hmsg]. revert Hmsg. exec; cbn [fst snd]; try done.
    bool_facts; arith_nones. lia.
  - intros [r Hr].
    destruct (withdrawPlatformFees e amt w) as [[s|msg] w'] eqn:Hrun; [|done].
    apply withdrawPlatformFees_Done in Hrun as Hcond.
    destruct Hcond as (Ha & Hp & Hf & Hb).
    rewrite withdrawPlatformFees_ok in Hrun by done.
    injection Hrun as _ <-. done.
Qed.


(** * The pending admin *)

(** X14. Once [acceptAdmin] has returned, a further [acceptAdmin] by anyone
    fails with "No pending admin transfer".  Once [transferAdmin] has
    returned, [acceptAdmin] by any account other than the one just
    proposed fails: a later proposal replaces an earlier one. *)
Theorem pending_admin_accepts_once (e e2 : Env) (newAdmin : Account) (w : World) :
  (forall r w',
     acceptAdmin e w = (Done r, w') ->
     acceptAdmin e2 w' = (Abort "No pending admin transfer", w'))
  /\ (forall r w',
        transferAdmin e newAdmin w = (Done r, w') ->
        sender e2 <> newAdmin ->
        exists msg, acceptAdmin e2 w' = (Abort msg, w')).
Proof.
  split.
  - intros r w' Hrun. apply acceptAdmin_Done in Hrun as (_ & _ & ->).
    reflexivity.
  - intros r w' Hrun Hne. apply transferAdmin_Done in Hrun as (_ & _ & ->).
    exec; try (by eexists). bool_facts. cbn in *. congruence.
Qed.

(** [newcomerN] accepts the handoff, and cannot accept it twice. *)
Lemma pending_admin_accepts_once_witness :
  acceptAdmin (envOf newcomerN) handoffWorld
  = (Done "Admin role accepted", step handoffWorld (envOf newcomerN, AcceptAdmin))
  /\ acceptAdmin (envOf newcomerN) (step handoffWorld (envOf newcomerN, AcceptAdmin))
     = (Abort "No pending admin transfer",
        step handoffWorld (envOf newcomerN, AcceptAdmin)).
Proof.
  assert (Hrun :
    acceptAdmin (envOf newcomerN) handoffWorld
    = (Done "Admin role accepted", step handoffWorld (envOf newcomerN, AcceptAdmin)))
    by (vm_compute; reflexivity).
  split; [exact Hrun|].
  exact (proj1 (pending_admin_accepts_once (envOf newcomerN) (envOf newcomerN)
                  newcomerN handoffWorld) _ _ Hrun).
Defined.

(** * Minting a badge *)

Lemma mintBadge_ok e s t a w :
  isPaused (globals w) = 0 ->
  sender e = adminAddress (globals w) \/ sender e = a ->
  1 <= t <= 4 ->
  isRegistered (profileOf a w) = 1 ->
  totalBadgesMinted (globals w) < MAX_UINT64 ->
  mintBadge e s t a w =
  (Done (tierNameOf t ++ " badge minted successfully")%string,
   withLog "TipJar:BadgeMinted"
     (withGlobals
        (set_totalBadgesMinted (totalBadgesMinted (globals w) + 1) (globals w))
        (withItxn
           (ItxnAssetConfig 1 0 false "TJBADGE"
              ("TipJar " ++ tierNameOf t ++ " Badge")%string 0) w))).
Proof.
  intros Hp Hauth Ht Hreg Hroom.
  assert (Hor : (String.eqb (sender e) (adminAddress (globals w))
                 || String.eqb (sender e) a)%bool = true).
  { apply orb_true_iff. rewrite !String.eqb_eq. exact Hauth. }
  assert (Htier : ((1 <=? t) && (t <=? 4))%bool = true).
  { apply andb_true_iff. rewrite !N.leb_le. exact Ht. }
  exec; try congruence; bool_facts; arith_facts; arith_nones; subst;
    try done; try lia.
Qed.

Lemma mintBadge_Done e s t a w r w' :
  mintBadge e s t a w = (Done r, w') ->
  isPaused (globals w) = 0
  /\ (sender e = adminAddress (globals w) \/ sender e = a)
  /\ 1 <= t <= 4
  /\ isRegistered (profileOf a w) = 1
  /\ totalBadgesMinted (globals w) < MAX_UINT64.
Proof.
  exec; intros [= <- <-].
  match goal with
  | H : (_ || _)%bool = true |- _ =>
      apply orb_true_iff in H; rewrite !String.eqb_eq in H
  end.
  match goal with
  | H : add64 _ _ = Some _ |- _ =>
      unfold add64 in H;
      destruct (totalBadgesMinted (globals w) + 1 <=? MAX_UINT64) eqn:Hle;
        [apply N.leb_le in Hle|discriminate H]
  end.
  bool_facts. repeat split; try done. lia.
Qed.

(** X15. [mintBadge] returns exactly when the contract is not paused, the
    caller is the admin or the creator named, the tier is between 1 and
    4, that creator is registered and [totalBadgesMinted] can still grow.
    Different valid tiers have different tier names. *)
Theorem mintBadge_exactly_when (e : Env) (supporter : Account) (badgeTier : N)
    (creatorAddr : Account) (w : World) :
  (succeeds (mintBadge e supporter badgeTier creatorAddr w)
   <-> isPaused (globals w) = 0
       /\ (sender e = adminAddress (globals w) \/ sender e = creatorAddr)
       /\ 1 <= badgeTier <= 4
       /\ isRegistered (profileOf creatorAddr w) = 1
       /\ totalBadgesMinted (globals w) < MAX_UINT64)
  /\ forall t1 t2,
       1 <= t1 <= 4 -> 1 <= t2 <= 4 -> tierNameOf t1 = tierNameOf t2 -> t1 = t2.
Proof.
  split.
  - split.
    + intros [r Hr].
      destruct (mintBadge e supporter badgeTier creatorAddr w)
        as [[s|msg] w'] eqn:Hrun; [|done].
      by apply mintBadge_Done in Hrun.
    + intros (Hp & Ha & Ht & Hr & Hroom). rewrite mintBadge_ok by done.
      by eexists.
  - intros t1 t2 H1 H2.
    assert (Hcases : forall t, 1 <= t <= 4 -> t = 1 \/ t = 2 \/ t = 3 \/ t = 4)
      by (intros; lia).
    destruct (Hcases t1 H1) as [-> | [-> | [-> | ->]]];
      destruct (Hcases t2 H2) as [-> | [-> | [-> | ->]]]; cbn; congruence.
Qed.


(** * Registering *)

Lemma registerCreator_ok e name bio category profileImage w :
  isPaused (globals w) = 0 ->
  isRegistered (profileOf (sender e) w) <> 1 ->
  0 < strlen name <= MAX_NAME_LEN ->
  0 < strlen bio <= MAX_BIO_LEN ->
  0 < strlen category <= MAX_CATEGORY_LEN ->
  strlen profileImage <= MAX_IMAGE_LEN ->
  totalCreators (globals w) < MAX_UINT64 ->
  registerCreator e name bio category profileImage w =
  (Done ("Creator " ++ name ++ " registered successfully")%string,
   withLog "TipJar:CreatorRegistered"
     (withGlobals
        (set_totalCreators (totalCreators (globals w) + 1) (globals w))
        (withProfile (sender e)
           (mkProfile name bio category 0 0 1 profileImage "" 0 "") w))).
Proof.
  intros Hp Hreg [Hn1 Hn2] [Hb1 Hb2] [Hc1 Hc2] Hi Hroom.
  exec; bool_facts; arith_facts; arith_nones; subst; try done; try lia.
Qed.

Lemma registerCreator_checks e name bio category profileImage w r w' :
  registerCreator e name bio category profileImage w = (Done r, w') ->
  isPaused (globals w) = 0
  /\ isRegistered (profileOf (sender e) w) <> 1
  /\ 0 < strlen name <= MAX_NAME_LEN
  /\ 0 < strlen bio <= MAX_BIO_LEN
  /\ 0 < strlen category <= MAX_CATEGORY_LEN
  /\ strlen profileImage <= MAX_IMAGE_LEN
  /\ totalCreators (globals w) < MAX_UINT64.
Proof.
  exec; intros [= <- <-].
  match goal with
  | H : add64 _ _ = Some _ |- _ =>
      unfold add64 in H;
      destruct (totalCreators (globals w) + 1 <=? MAX_UINT64) eqn:Hle;
        [apply N.leb_le in Hle|discriminate H]
  end.
  bool_facts. repeat split; try done. lia.
Qed.

(** X16. [registerCreator] returns only when the contract is not paused,
    the caller is not registered, name, bio and category are non-empty,
    the four texts are within 50, 200, 20 and 200 characters and
    [totalCreators] can still grow.  It then returns "Creator <name>
    registered successfully"; the caller's profile is the four texts with
    zero counters, the registered flag and no revenue split; every other
    profile and the inner transactions are as before; and
    [totalCreators] has grown by one. *)
Theorem registerCreator_returns_only_when (e : Env)
    (name bio category profileImage : string) (w : World) (r : string)
    (w' : World) :
  registerCreator e name bio category profileImage w = (Done r, w') ->
  (isPaused (globals w) = 0
   /\ isRegistered (profileOf (sender e) w) <> 1
   /\ 0 < strlen name <= MAX_NAME_LEN
   /\ 0 < strlen bio <= MAX_BIO_LEN
   /\ 0 < strlen category <= MAX_CATEGORY_LEN
   /\ strlen profileImage <= MAX_IMAGE_LEN
   /\ totalCreators (globals w) < MAX_UINT64)
  /\ r = ("Creator " ++ name ++ " registered successfully")%string
  /\ profileOf (sender e) w' = mkProfile name bio category 0 0 1 profileImage "" 0 ""
  /\ (forall a, a <> sender e -> profileOf a w' = profileOf a w)
  /\ totalCreators (globals w') = totalCreators (globals w) + 1
  /\ itxns w' = itxns w.
Proof.
  intros Hrun. pose proof (registerCreator_checks _ _ _ _ _ _ _ _ Hrun) as Hchecks.
  split; [exact Hchecks|].
  destruct Hchecks as (Hp & Hreg & Hn & Hb & Hc & Hi & Hroom).
  rewrite registerCreator_ok in Hrun by done.
  injection Hrun as <- <-. split; [reflexivity|].
  unfold profileOf, withLog, withGlobals, withProfile; cbn [globals locals itxns].
  rewrite profileIn_insert_eq. repeat split; try done.
  intros a Hne. by rewrite profileIn_insert_ne.
Qed.

(** [creatorC] registers in the state after creation. *)
Lemma registerCreator_returns_only_when_witness :
  registerCreator (envOf creatorC) "C" "paints" "art" "" (created (envOf deployer))
  = (Done "Creator C registered successfully", worldC)
  /\ (isPaused (globals (created (envOf deployer))) = 0
      /\ isRegistered (profileOf (sender (envOf creatorC)) (created (envOf deployer))) <> 1
      /\ 0 < strlen "C" <= MAX_NAME_LEN
      /\ 0 < strlen "paints" <= MAX_BIO_LEN
      /\ 0 < strlen "art" <= MAX_CATEGORY_LEN
      /\ strlen "" <= MAX_IMAGE_LEN
      /\ totalCreators (globals (created (envOf deployer))) < MAX_UINT64)
  /\ "Creator C registered successfully"
     = ("Creator " ++ "C" ++ " registered successfully")%string
  /\ profileOf (sender (envOf creatorC)) worldC
     = mkProfile "C" "paints" "art" 0 0 1 "" "" 0 ""
  /\ (forall a, a <> sender (envOf creatorC) ->
      profileOf a worldC = profileOf a (created (envOf deployer)))
  /\ totalCreators (globals worldC)
     = totalCreators (globals (created (envOf deployer))) + 1
  /\ itxns worldC = itxns (created (envOf deployer)).
Proof.
  assert (Hrun : registerCreator (envOf creatorC) "C" "paints" "art" ""
                   (created (envOf deployer))
                 = (Done "Creator C registered successfully", worldC))
    by (vm_compute; reflexivity).
  split; [exact Hrun|].
  exact (registerCreator_returns_only_when (envOf creatorC) "C" "paints" "art" ""
           (created (envOf deployer)) _ _ Hrun).
Defined.

(** * Counters only grow *)

Lemma grow_step e c w a :
  let w' := step w (e, c) in
  totalCreators (globals w) <= totalCreators (globals w')
  /\ totalTipsProcessed (globals w) <= totalTipsProcessed (globals w')
  /\ totalTipCount (globals w) <= totalTipCount (globals w')
  /\ totalBadgesMinted (globals w) <= totalBadgesMinted (globals w')
  /\ (isRegistered (profileOf a w) = 1 ->
      isRegistered (profileOf a w') = 1
      /\ tipsReceived (profileOf a w) <= tipsReceived (profileOf a w')
      /\ tipCount (profileOf a w) <= tipCount (profileOf a w')).
Proof.
  intros w'. subst w'.
  destruct (step_committed e c w) as
    [c| | | | |n b cat i Hp Hreg Hn Hb Hc Hi
     |n b cat i Hp Hreg Hn Hb Hc Hi
     |addr name pct Hp Hreg Hpct Haddr Hname
     |Hp Hreg
     |x m p Hp Hreg Hmin Hself Hfee Hshare
     | | | | | ];
    committed_simpl; cbn [totalCreators totalTipsProcessed totalTipCount
      totalBadgesMinted set_totalCreators set_totalTipsProcessed set_totalTipCount
      set_totalBadgesMinted set_isPaused set_pendingAdminAddress set_adminAddress
      set_totalFeesAccumulated set_minTipAmount set_platformFeeBps
      set_bronzeThreshold set_silverThreshold set_goldThreshold
      set_diamondThreshold];
    unfold profileOf in *; cbn [locals] in *;
    (split; [lia|]); (split; [lia|]); (split; [lia|]); (split; [lia|]);
    intros Hreg_a; try (split; [exact Hreg_a|lia]).
  - destruct (decide (sender e = a)) as [<-|Hne]; [done|].
    rewrite profileIn_insert_ne by done. split; [done|lia].
  - destruct (decide (sender e = a)) as [<-|Hne].
    + rewrite profileIn_insert_eq. cbn. split; [done|lia].
    + rewrite profileIn_insert_ne by done. split; [done|lia].
  - destruct (decide (sender e = a)) as [<-|Hne].
    + rewrite profileIn_insert_eq. cbn. split; [done|lia].
    + rewrite profileIn_insert_ne by done. split; [done|lia].
  - destruct (decide (sender e = a)) as [<-|Hne].
    + rewrite profileIn_insert_eq. cbn. split; [done|lia].
    + rewrite profileIn_insert_ne by done. split; [done|lia].
  - destruct (decide (x = a)) as [<-|Hne].
    + rewrite profileIn_insert_eq. cbn. split; [done|lia].
    + rewrite profileIn_insert_ne by done. split; [done|lia].
Qed.

(** X17. Along any run, [totalCreators], [totalTipsProcessed],
    [totalTipCount] and [totalBadgesMinted] never decrease, a registered
    account stays registered, and its [tipsReceived] and [tipCount]
    never decrease. *)
Theorem counters_never_decrease (e0 : Env) (cs cs' : list (Env * Call))
    (a : Account) :
  let w := run e0 cs in
  let w' := run e0 (cs ++ cs') in
  totalCreators (globals w) <= totalCreators (globals w')
  /\ totalTipsProcessed (globals w) <= totalTipsProcessed (globals w')
  /\ totalTipCount (globals w) <= totalTipCount (globals w')
  /\ totalBadgesMinted (globals w) <= totalBadgesMinted (globals w')
  /\ (isRegistered (profileOf a w) = 1 ->
      isRegistered (profileOf a w') = 1
      /\ tipsReceived (profileOf a w) <= tipsReceived (profileOf a w')
      /\ tipCount (profileOf a w) <= tipCount (profileOf a w')).
Proof.
  cbv zeta. induction cs' as [|[e c] cs' IH] using rev_ind.
  - rewrite app_nil_r. repeat split; try done; lia.
  - rewrite app_assoc, run_snoc.
    destruct IH as (H1 & H2 & H3 & H4 & H5).
    destruct (grow_step e c (run e0 (cs ++ cs')) a) as (G1 & G2 & G3 & G4 & G5).
    split; [lia|]. split; [lia|]. split; [lia|]. split; [lia|].
    intros Hreg. destruct (H5 Hreg) as (R1 & R2 & R3).
    destruct (G5 R1) as (S1 & S2 & S3). split; [done|lia].
Qed.

(** The counters of [creatorC] before and after a tip. *)
Lemma counters_never_decrease_witness :
  let w := run (envOf deployer) [registerC] in
  let w' := run (envOf deployer) ([registerC] ++ [tipC]) in
  isRegistered (profileOf creatorC w) = 1
  /\ isRegistered (profileOf creatorC w') = 1
  /\ tipsReceived (profileOf creatorC w) <= tipsReceived (profileOf creatorC w')
  /\ tipCount (profileOf creatorC w) <= tipCount (profileOf creatorC w').
Proof.
  intros w w'.
  assert (Hreg : isRegistered (profileOf creatorC w) = 1)
    by (vm_compute; reflexivity).
  destruct (counters_never_decrease (envOf deployer) [registerC] [tipC] creatorC)
    as (_ & _ & _ & _ & Hgrow).
  split; [exact Hreg|]. exact (Hgrow Hreg).
Defined.


(** * A profile's counters and the platform totals *)

Lemma sumOver_lookup_le f (l : gmap string Profile) a p :
  l !! a = Some p -> f p <= sumOver f l.
Proof.
  intros Hp. unfold sumOver.
  rewrite (map_fold_delete_L _ _ a p l); [lia| |done].
  intros; lia.
Qed.

Lemma counters_within_totals_run (e0 : Env) (cs : list (Env * Call))
    (a : Account) :
  tipsReceived (profileOf a (run e0 cs)) <= totalTipsProcessed (globals (run e0 cs))
  /\ tipCount (profileOf a (run e0 cs)) <= totalTipCount (globals (run e0 cs)).
Proof.
  destruct (conserved_run e0 cs) as [Htips Hcount].
  destruct (profilesOk_run e0 cs a) as [->|(Hreg & _)]; [cbn; lia|].
  unfold sumTipsReceived, sumTipCount, profileOf in *.
  apply registered_lookup in Hreg as Hlook.
  pose proof (sumOver_lookup_le tipsCredited _ _ _ Hlook) as H1.
  pose proof (sumOver_lookup_le countCredited _ _ _ Hlook) as H2.
  destruct (credited_registered _ Hreg) as (E1 & E2 & _).
  rewrite E1 in H1. rewrite E2 in H2. lia.
Qed.

(** X18. After creation and any sequence of calls, no account's
    [tipsReceived] exceeds [totalTipsProcessed] and no account's
    [tipCount] exceeds [totalTipCount]. *)
Theorem profile_counters_within_totals (e0 : Env) (cs : list (Env * Call))
    (a : Account) :
  tipsReceived (profileOf a (run e0 cs)) <= totalTipsProcessed (globals (run e0 cs))
  /\ tipCount (profileOf a (run e0 cs)) <= totalTipCount (globals (run e0 cs)).
Proof. exact (counters_within_totals_run e0 cs a). Qed.

(** * A tip that passes the guards is taken *)

(** X19. In a state reached from creation, a tip that passes the guards of
    [sendTip] (contract not paused, registered target, amount at least
    the minimum, paid to the contract, no close-remainder-to, no
    rekey-to, not a self-tip) is taken, provided 1000 times the amount
    fits in a [uint64] and the two platform totals have room: no other
    arithmetic in the method can fail. *)
Theorem sendTip_succeeds (e0 : Env) (cs : list (Env * Call)) (e : Env)
    (creator : Account) (message : string) (tipPayment : PaymentTxn) :
  let w := run e0 cs in
  isPaused (globals w) = 0 ->
  isRegistered (profileOf creator w) = 1 ->
  minTipAmount (globals w) <= amount tipPayment ->
  receiver tipPayment = currentApplicationAddress e ->
  closeRemainderTo tipPayment = zeroAddress ->
  rekeyTo tipPayment = zeroAddress ->
  sender e <> creator ->
  amount tipPayment * 1000 <= MAX_UINT64 ->
  totalTipsProcessed (globals w) + amount tipPayment <= MAX_UINT64 ->
  totalTipCount (globals w) < MAX_UINT64 ->
  succeeds (sendTip e creator message tipPayment w)
  /\ step w (e, SendTip creator message tipPayment)
     = snd (sendTip e creator message tipPayment w).
Proof.
  intros w Hp Hreg Hmin Hrcv Hclose Hrekey Hself Hamount Hroom Hcount.
  destruct (settingsOk_run e0 cs) as (Hbps & _). fold w in Hbps.
  pose proof (splitOk_run e0 cs creator) as Hsplit. fold w in Hsplit.
  assert (Hpct : revSplitPercent (profileOf creator w) <= 50)
    by (destruct Hsplit as [(_ & _ & ->)|(_ & _ & _ & ?)]; [lia|done]).
  pose proof (backed_run e0 cs) as Hbacked. fold w in Hbacked.
  destruct (counters_within_totals_run e0 cs creator) as [Hrecv Hcnt].
  fold w in Hrecv, Hcnt.
  set (A := amount tipPayment) in *.
  set (B := platformFeeBps (globals w)) in *.
  set (pct := revSplitPercent (profileOf creator w)) in *.
  pose proof (N.mul_le_mono_l B 1000 A Hbps) as F1.
  pose proof (fee_bound A B Hbps) as F2.
  pose proof (share_bound (A - A * B / 10000) pct Hpct) as F4.
  assert (F3 : (A - A * B / 10000) * pct <= A * 50).
  { apply N.mul_le_mono; [apply N.le_sub_l|done]. }
  assert (Hdone : exists r w', sendTip e creator message tipPayment w = (Done r, w')).
  { apply String.eqb_neq in Hself as Hself'.
    apply String.eqb_eq in Hrcv as Hrcv'.
    apply String.eqb_eq in Hclose as Hclose'.
    apply String.eqb_eq in Hrekey as Hrekey'.
    subst A B pct. unfold profileOf in *.
    unfold_methods.
    repeat (first [exec_step | exec_split]; exec_tidy;
            try (exfalso; bool_facts; arith_facts; arith_nones; subst;
                 cbn [negb tipCount tipsReceived set_tipsReceived set_tipCount
                      totalTipCount totalTipsProcessed totalFeesAccumulated
                      set_totalTipsProcessed set_totalFeesAccumulated
                      set_totalTipCount] in *;
                 first [congruence | lia
                       | set (P1 := amount tipPayment * platformFeeBps (globals w)) in *;
                         set (fee := P1 / 10000) in *;
                         set (P2 := (amount tipPayment - fee)
                                    * revSplitPercent (profileIn (locals w) creator)) in *;
                         set (share := P2 / 100) in *;
                         clearbody share P2 fee P1; lia]));
    cbv beta iota delta [ret]; by do 2 eexists. }
  destruct Hdone as (r & w' & Hrun). split; [rewrite Hrun; by eexists|].
  unfold step, call, body; cbn [fst snd]. rewrite returning_run, Hrun. done.
Qed.


(** The tip of 2,000,000 units to [creatorC] meets every condition. *)
Lemma sendTip_succeeds_witness :
  let w := run (envOf deployer) [registerC] in
  (isPaused (globals w) = 0
   /\ isRegistered (profileOf creatorC w) = 1
   /\ minTipAmount (globals w) <= amount (tipOf 2000000)
   /\ receiver (tipOf 2000000) = currentApplicationAddress (envOf supporterS)
   /\ closeRemainderTo (tipOf 2000000) = zeroAddress
   /\ rekeyTo (tipOf 2000000) = zeroAddress
   /\ sender (envOf supporterS) <> creatorC
   /\ amount (tipOf 2000000) * 1000 <= MAX_UINT64
   /\ totalTipsProcessed (globals w) + amount (tipOf 2000000) <= MAX_UINT64
   /\ totalTipCount (globals w) < MAX_UINT64)
  /\ succeeds (sendTip (envOf supporterS) creatorC "thanks" (tipOf 2000000) w)
  /\ step w (envOf supporterS, SendTip creatorC "thanks" (tipOf 2000000))
     = snd (sendTip (envOf supporterS) creatorC "thanks" (tipOf 2000000) w).
Proof.
  intros w.
  assert (H1 : isPaused (globals w) = 0) by (vm_compute; reflexivity).
  assert (H2 : isRegistered (profileOf creatorC w) = 1) by (vm_compute; reflexivity).
  assert (H3 : minTipAmount (globals w) <= amount (tipOf 2000000))
    by (vm_compute; discriminate).
  assert (H4 : receiver (tipOf 2000000) = currentApplicationAddress (envOf supporterS))
    by reflexivity.
  assert (H5 : closeRemainderTo (tipOf 2000000) = zeroAddress) by reflexivity.
  assert (H6 : rekeyTo (tipOf 2000000) = zeroAddress) by reflexivity.
  assert (H7 : sender (envOf supporterS) <> creatorC) by (vm_compute; discriminate).
  assert (H8 : amount (tipOf 2000000) * 1000 <= MAX_UINT64)
    by (vm_compute; discriminate).
  assert (H9 : totalTipsProcessed (globals w) + amount (tipOf 2000000) <= MAX_UINT64)
    by (vm_compute; discriminate).
  assert (H10 : totalTipCount (globals w) < MAX_UINT64) by (vm_compute; reflexivity).
  split.
  - exact (conj H1 (conj H2 (conj H3 (conj H4 (conj H5 (conj H6 (conj H7
             (conj H8 (conj H9 H10))))))))).
  - exact (sendTip_succeeds (envOf deployer) [registerC] (envOf supporterS)
             creatorC "thanks" (tipOf 2000000) H1 H2 H3 H4 H5 H6 H7 H8 H9 H10).
Defined.

(** * The front end's tiers and the contract's *)

(** X20. The front end's [getBadgeTier] gives no tier below 5,000,000 and
    otherwise the highest tier whose threshold the total reaches; that
    tier's level is one [mintBadge] accepts, its name is the name the
    contract gives that level, and its threshold is the contract's
    threshold for that level at creation.  A larger total never gives a
    lower tier. *)
Theorem getBadgeTier_matches_contract (e0 : Env) (total total' : N) :
  (FrontEnd.getBadgeTier total = None <-> total < 5000000)
  /\ (forall t,
        FrontEnd.getBadgeTier total = Some t ->
        1 <= FrontEnd.level t <= 4
        /\ FrontEnd.name t = tierNameOf (FrontEnd.level t)
        /\ FrontEnd.threshold t = thresholdOfTier (globals (created e0)) (FrontEnd.level t)
        /\ FrontEnd.threshold t <= total
        /\ forall t',
             In t' [FrontEnd.BADGE_TIERS.bronze; FrontEnd.BADGE_TIERS.silver; FrontEnd.BADGE_TIERS.gold;
                    FrontEnd.BADGE_TIERS.diamond] ->
             FrontEnd.threshold t' <= total ->
             FrontEnd.level t' <= FrontEnd.level t)
  /\ (forall t t',
        total <= total' ->
        FrontEnd.getBadgeTier total = Some t ->
        FrontEnd.getBadgeTier total' = Some t' ->
        FrontEnd.level t <= FrontEnd.level t').
Proof.
  rewrite created_state. unfold FrontEnd.getBadgeTier.
  cbn [FrontEnd.threshold FrontEnd.BADGE_TIERS.diamond FrontEnd.BADGE_TIERS.gold
       FrontEnd.BADGE_TIERS.silver FrontEnd.BADGE_TIERS.bronze].
  destruct (N.leb_spec 500000000 total); destruct (N.leb_spec 100000000 total);
    destruct (N.leb_spec 25000000 total); destruct (N.leb_spec 5000000 total);
    try lia.
  all: split; [split; [try discriminate; intros; lia | try done; intros; lia]|].
  all: split.
  all: try (intros t [= <-]; cbn; repeat split; try lia; try done;
            intros t' [<-|[<-|[<-|[<-|[]]]]]; cbn; lia).
  all: try (intros t; discriminate).
  all: intros t t' Hle [= <-];
    destruct (N.leb_spec 500000000 total'); destruct (N.leb_spec 100000000 total');
    destruct (N.leb_spec 25000000 total'); destruct (N.leb_spec 5000000 total');
    try lia; intros [= <-]; cbn; lia.
Qed.
